(** * Price-comparison-app: the gold/bitcoin price tracker of [main.py]

    A shallow embedding of [PriceRatioApp]: the file cache
    ([cache_prices], [load_cached_prices]), the three price adapters
    ([get_gold_prices_historical], [get_gold_prices_yfinance],
    [get_bitcoin_prices_historical]), [calculate_ratio] and [refresh_data].

    Conventions of the embedding:
    - Python [float] is IEEE binary64, Rocq's primitive [float];
    - a [Dict[str, float]] is a [gmap string float]; [str] is compared by
      code point, which is the order of the UTF-8 bytes held in [string];
    - methods of [PriceRatioApp] are computations in the monad [py]: they
      thread the fields of [self] (and the cache file) and may raise;
    - everything outside the process (clock, network replies, time zone,
      whether the disk accepts a write) is read from a [World];
    - the widgets are kept as the values they show: the table as its rows,
      the labels and dialogs as the messages put on them. *)

From Stdlib Require Import Floats.PrimFloat ZArith Lia.
From stdpp Require Import gmap strings list sorting.

Open Scope Z_scope.

(* Decimal float literals denote the nearest binary64 value, as in Python. *)
Set Warnings "-inexact-float".
(* No induction over nested JSON values is needed. *)
Set Warnings "-register-all".

(** * Embedding *)

(** ** Exceptions and results *)

Inductive exn : Type :=
  | KeyError (key : string)
  | TypeError
  | ValueError
  | OverflowError
  | OSError
  | JSONDecodeError
  | ZeroDivisionError
  | RequestException.

Inductive result (A : Type) : Type :=
  | Ok (a : A)
  | Raise (e : exn).
Arguments Ok {A} a.
Arguments Raise {A} e.

#[global] Instance result_ret : MRet result := λ A a, Ok a.
#[global] Instance result_bind : MBind result := λ A B f r,
  match r with
  | Ok a => f a
  | Raise e => Raise e
  end.

(** ** Time

    A naive local [datetime] is a count of microseconds on one time line;
    a [timedelta] is a difference of two of them. *)

Definition datetime : Type := Z.
Definition timedelta : Type := Z.

Definition timedelta_hours (hours : Z) : timedelta := hours * 3600 * 1000000.
Definition timedelta_seconds (seconds : Z) : timedelta := seconds * 1000000.

(** ** Python truthiness and true division on floats *)

(** [bool(x)] for a float: false exactly for [0.0] and [-0.0]; [nan] is true. *)
Definition float_truthy (x : float) : bool := negb (PrimFloat.eqb x 0%float).

(** [bool(d)] for a dict, with [None] falsy: [len(d) != 0]. *)
Definition series_truthy (o : option (gmap string float)) : bool :=
  match o with
  | Some prices => negb (Nat.eqb (size prices) 0)
  | None => false
  end.

(** [bool(d.get(k))] for a float-valued dict. *)
Definition price_truthy (o : option float) : bool :=
  match o with
  | Some x => float_truthy x
  | None => false
  end.

(** [a / b] on floats raises on a zero divisor and is IEEE division otherwise. *)
Definition truediv (a b : float) : result float :=
  if PrimFloat.eqb b 0%float then Raise ZeroDivisionError
  else Ok (PrimFloat.div a b).

(** ** The cache file [gold_prices_cache.json] *)

(** The value stored under ['timestamp'], seen through
    [datetime.fromtimestamp]: a number names a datetime, unless it is out of
    the platform's range; anything else is not a number. *)
Inductive ts_value : Type :=
  | TsNumber (t : datetime)
  | TsOutOfRange
  | TsNotNumber.

(** A JSON object read from the cache file; either member may be missing.
    The ['prices'] member is taken as [cache_prices] writes it, an object of
    dates and numbers; a file with another JSON value in its place is a
    [raw_cache_file], further down. *)
Record cache_object : Type := CacheObject {
  member_timestamp : option ts_value;
  member_prices : option (gmap string float)
}.

Inductive json_document : Type :=
  | JObject (o : cache_object)
  | JNotObject.                    (* a list, string, number or null *)

Inductive cache_file_state : Type :=
  | NoFile                         (* open(..., 'r') raises *)
  | NotJson                        (* json.load raises: empty or truncated *)
  | Document (d : json_document).

Inductive write_outcome : Type :=
  | WriteOk
  | OpenFails                      (* open(..., 'w') raises, file untouched *)
  | DumpFails.                     (* file truncated by open, dump raises *)

(** ** Replies of the outside world *)

Inductive http_reply (B : Type) : Type :=
  | RequestFails (e : exn)                    (* requests.get raises *)
  | Reply (status_code : Z) (json : result B).
Arguments RequestFails {B} e.
Arguments Reply {B} status_code json.

(** One element of the NBP reply: [item['data']], and [item['cena']] with
    what [float()] makes of it, a number or the exception it raises
    ([ValueError] on a text that is no number, [TypeError] on a value that is
    neither number nor text); [None] stands for a missing member. *)
Record nbp_item : Type := NbpItem {
  item_data : option string;
  item_cena : option (result float)
}.

Record World : Type := {
  now_load : datetime;             (* datetime.now() in load_cached_prices *)
  now_store : datetime;            (* datetime.now() in cache_prices *)
  now_refresh : datetime;          (* datetime.now() for the refresh label *)
  cache_write : write_outcome;
  nbp_get : Z → http_reply (list nbp_item);            (* .../last/{days} *)
  yf_history : Z → result (list (string * float));     (* (date, Close) rows *)
  coingecko_get : Z → http_reply (list (Z * float));   (* data['prices'] *)
  (* datetime.fromtimestamp(ms/1000).strftime('%Y-%m-%d'), local zone *)
  local_date : Z → result string
}.

(** ** The application state *)

Record RatioPoint : Type := {
  row_date : string;
  row_gold : float;
  row_bitcoin : float;
  row_ratio : float
}.

Inductive detail : Type :=
  | NoDetail
  | UsingCachedData
  | StatusCode (code : Z)
  | ExnDetail (e : exn).

Inductive label_text : Type :=
  | LabelEmpty
  | LastRefreshed (t : datetime)
  | LabelFetchError.

Inductive log_entry : Type :=
  | LogStatus (api_name : string) (status : bool) (message : detail)
  | LogNbpError (e : exn)
  | LogYFinanceError (e : exn)
  | LogBitcoinError (e : exn)
  | LogCacheError (e : exn).

(** Calls that leave the process, in the order they are made. *)
Inductive io_event : Type :=
  | CacheRead
  | CacheWrite
  | NbpRequest (days : Z)
  | YFinanceRequest (days : Z)
  | CoinGeckoRequest (days : Z).

Record App : Type := {
  days_to_show : Z;
  ratio_mode : string;
  current_data : list RatioPoint;
  api_status : gmap string bool;
  status_labels : gmap string (bool * detail);
  tree : list RatioPoint;          (* the rows shown; text formatting elided *)
  ratio_heading : string;
  refresh_label : label_text;
  dialogs : list (string * string);         (* messagebox.showerror calls *)
  log : list log_entry;
  cache_file : cache_file_state;
  io_trace : list io_event
}.

Definition set_current_data (v : list RatioPoint) (s : App) : App :=
  {| days_to_show := days_to_show s; ratio_mode := ratio_mode s;
     current_data := v; api_status := api_status s;
     status_labels := status_labels s; tree := tree s;
     ratio_heading := ratio_heading s; refresh_label := refresh_label s;
     dialogs := dialogs s; log := log s; cache_file := cache_file s;
     io_trace := io_trace s |}.

(** [status_text]: a success is shown as "Success" whatever the message, a
    failure as "Failed:" followed by the message. *)
Definition status_text (status : bool) (message : detail) : detail :=
  if status then NoDetail else message.

Definition set_status (name : string) (status : bool) (message : detail)
    (s : App) : App :=
  {| days_to_show := days_to_show s; ratio_mode := ratio_mode s;
     current_data := current_data s;
     api_status := <[name := status]> (api_status s);
     status_labels :=
       <[name := (status, status_text status message)]> (status_labels s);
     tree := tree s;
     ratio_heading := ratio_heading s; refresh_label := refresh_label s;
     dialogs := dialogs s;
     log := log s ++ [LogStatus name status (status_text status message)];
     cache_file := cache_file s; io_trace := io_trace s |}.

Definition set_tree (v : list RatioPoint) (s : App) : App :=
  {| days_to_show := days_to_show s; ratio_mode := ratio_mode s;
     current_data := current_data s; api_status := api_status s;
     status_labels := status_labels s; tree := v;
     ratio_heading := ratio_heading s; refresh_label := refresh_label s;
     dialogs := dialogs s; log := log s; cache_file := cache_file s;
     io_trace := io_trace s |}.

Definition set_ratio_heading (v : string) (s : App) : App :=
  {| days_to_show := days_to_show s; ratio_mode := ratio_mode s;
     current_data := current_data s; api_status := api_status s;
     status_labels := status_labels s; tree := tree s;
     ratio_heading := v; refresh_label := refresh_label s;
     dialogs := dialogs s; log := log s; cache_file := cache_file s;
     io_trace := io_trace s |}.

Definition set_refresh_label (v : label_text) (s : App) : App :=
  {| days_to_show := days_to_show s; ratio_mode := ratio_mode s;
     current_data := current_data s; api_status := api_status s;
     status_labels := status_labels s; tree := tree s;
     ratio_heading := ratio_heading s; refresh_label := v;
     dialogs := dialogs s; log := log s; cache_file := cache_file s;
     io_trace := io_trace s |}.

Definition set_days_to_show (v : Z) (s : App) : App :=
  {| days_to_show := v; ratio_mode := ratio_mode s;
     current_data := current_data s; api_status := api_status s;
     status_labels := status_labels s; tree := tree s;
     ratio_heading := ratio_heading s; refresh_label := refresh_label s;
     dialogs := dialogs s; log := log s; cache_file := cache_file s;
     io_trace := io_trace s |}.

Definition set_ratio_mode (v : string) (s : App) : App :=
  {| days_to_show := days_to_show s; ratio_mode := v;
     current_data := current_data s; api_status := api_status s;
     status_labels := status_labels s; tree := tree s;
     ratio_heading := ratio_heading s; refresh_label := refresh_label s;
     dialogs := dialogs s; log := log s; cache_file := cache_file s;
     io_trace := io_trace s |}.

Definition add_dialog (title message : string) (s : App) : App :=
  {| days_to_show := days_to_show s; ratio_mode := ratio_mode s;
     current_data := current_data s; api_status := api_status s;
     status_labels := status_labels s; tree := tree s;
     ratio_heading := ratio_heading s; refresh_label := refresh_label s;
     dialogs := dialogs s ++ [(title, message)]; log := log s;
     cache_file := cache_file s; io_trace := io_trace s |}.

Definition add_log (entry : log_entry) (s : App) : App :=
  {| days_to_show := days_to_show s; ratio_mode := ratio_mode s;
     current_data := current_data s; api_status := api_status s;
     status_labels := status_labels s; tree := tree s;
     ratio_heading := ratio_heading s; refresh_label := refresh_label s;
     dialogs := dialogs s; log := log s ++ [entry];
     cache_file := cache_file s; io_trace := io_trace s |}.

Definition set_cache_file (v : cache_file_state) (s : App) : App :=
  {| days_to_show := days_to_show s; ratio_mode := ratio_mode s;
     current_data := current_data s; api_status := api_status s;
     status_labels := status_labels s; tree := tree s;
     ratio_heading := ratio_heading s; refresh_label := refresh_label s;
     dialogs := dialogs s; log := log s; cache_file := v;
     io_trace := io_trace s |}.

Definition add_io (ev : io_event) (s : App) : App :=
  {| days_to_show := days_to_show s; ratio_mode := ratio_mode s;
     current_data := current_data s; api_status := api_status s;
     status_labels := status_labels s; tree := tree s;
     ratio_heading := ratio_heading s; refresh_label := refresh_label s;
     dialogs := dialogs s; log := log s; cache_file := cache_file s;
     io_trace := io_trace s ++ [ev] |}.

(** ** The monad of methods: state of [self] plus exceptions *)

Definition py (A : Type) : Type := App → App * result A.

#[global] Instance py_ret : MRet py := λ A a s, (s, Ok a).
#[global] Instance py_bind : MBind py := λ A B f m s,
  match m s with
  | (s', Ok a) => f a s'
  | (s', Raise e) => (s', Raise e)
  end.

Definition gets {A : Type} (f : App → A) : py A := λ s, (s, Ok (f s)).
Definition modify (f : App → App) : py unit := λ s, (f s, Ok ()).
Definition lift {A : Type} (r : result A) : py A := λ s, (s, r).

(** [try: body / except Exception as e: handler e]; what [body] did to the
    state before raising stays done. *)
Definition try_except {A : Type} (body : py A) (handler : exn → py A) : py A :=
  λ s, match body s with
       | (s', Raise e) => handler e s'
       | (s', Ok a) => (s', Ok a)
       end.

Fixpoint for_each {A : Type} (l : list A) (body : A → py unit) : py unit :=
  match l with
  | [] => mret ()
  | x :: l' => body x ;; for_each l' body
  end.

(** ** The methods of [PriceRatioApp] *)

Definition update_api_status (api_name : string) (status : bool)
    (message : detail) : py unit :=
  modify (set_status api_name status message).

(** [open(...,'r')] then [json.load(f)]. *)
Definition json_load (f : cache_file_state) : result json_document :=
  match f with
  | NoFile => Raise OSError
  | NotJson => Raise JSONDecodeError
  | Document d => Ok d
  end.

(** [data['timestamp']] and [data['prices']]. *)
Definition getitem_timestamp (data : json_document) : result ts_value :=
  match data with
  | JObject o =>
      match member_timestamp o with
      | Some v => Ok v
      | None => Raise (KeyError "timestamp")
      end
  | JNotObject => Raise TypeError
  end.

Definition getitem_prices (data : json_document)
    : result (gmap string float) :=
  match data with
  | JObject o =>
      match member_prices o with
      | Some v => Ok v
      | None => Raise (KeyError "prices")
      end
  | JNotObject => Raise TypeError
  end.

Definition fromtimestamp (v : ts_value) : result datetime :=
  match v with
  | TsNumber t => Ok t
  | TsOutOfRange => Raise OverflowError
  | TsNotNumber => Raise TypeError
  end.

(** [load_cached_prices]: the [if] has no [else], so a stale record falls
    off the end of the function and yields [None]. *)
Definition load_cached_prices (w : World) : py (option (gmap string float)) :=
  try_except
    (modify (add_io CacheRead) ;;
     file ← gets cache_file;
     data ← lift (json_load file);
     ts ← lift (getitem_timestamp data);
     cache_time ← lift (fromtimestamp ts);
     if bool_decide (now_load w - cache_time < timedelta_hours 1) then
       prices ← lift (getitem_prices data);
       mret (Some prices)
     else mret None)
    (λ _, mret None).

(** [cache_prices]: the record written holds [datetime.now().timestamp()],
    which [fromtimestamp] reads back as the same datetime. *)
Definition json_dump (w : World) (record : cache_object) : py unit :=
  modify (add_io CacheWrite) ;;
  match cache_write w with
  | WriteOk => modify (set_cache_file (Document (JObject record)))
  | OpenFails => lift (Raise OSError)
  | DumpFails => modify (set_cache_file NotJson) ;; lift (Raise OSError)
  end.

Definition cache_prices (w : World) (prices : gmap string float) : py unit :=
  try_except
    (json_dump w {| member_timestamp := Some (TsNumber (now_store w));
                    member_prices := Some prices |})
    (λ e, modify (add_log (LogCacheError e))).

(** ** The cache file with any JSON value under ['prices']

    [load_cached_prices] hands back [data['prices']] without looking at it.
    To say what it does on a file that [cache_prices] did not write, here
    is the same function over files whose ['prices'] member is any JSON
    value, with Python's [None] as [VNull]. *)

Inductive json : Type :=
  | VNull
  | VBool (b : bool)
  | VInt (n : Z)
  | VFloat (x : float)
  | VString (text : string)
  | VArray (items : list json)
  | VObject (members : list (string * json)).

Record raw_cache_object : Type := RawCacheObject {
  raw_timestamp : option ts_value;
  raw_prices : option json
}.

Inductive raw_document : Type :=
  | RawObject (o : raw_cache_object)
  | RawNotObject.

Inductive raw_cache_file : Type :=
  | RawNoFile
  | RawNotJson
  | RawDocument (d : raw_document).

Definition raw_json_load (f : raw_cache_file) : result raw_document :=
  match f with
  | RawNoFile => Raise OSError
  | RawNotJson => Raise JSONDecodeError
  | RawDocument d => Ok d
  end.

Definition raw_getitem_timestamp (data : raw_document) : result ts_value :=
  match data with
  | RawObject o =>
      match raw_timestamp o with
      | Some v => Ok v
      | None => Raise (KeyError "timestamp")
      end
  | RawNotObject => Raise TypeError
  end.

Definition raw_getitem_prices (data : raw_document) : result json :=
  match data with
  | RawObject o =>
      match raw_prices o with
      | Some v => Ok v
      | None => Raise (KeyError "prices")
      end
  | RawNotObject => Raise TypeError
  end.

(** [load_cached_prices] at clock reading [now]. *)
Definition load_cached_prices_raw (now : datetime) (file : raw_cache_file)
    : result json :=
  match
    data ← raw_json_load file;
    ts ← raw_getitem_timestamp data;
    cache_time ← fromtimestamp ts;
    if bool_decide (now - cache_time < timedelta_hours 1) then
      raw_getitem_prices data
    else mret VNull
  with
  | Ok value => Ok value
  | Raise _ => Ok VNull              (* except Exception: return None *)
  end.

(** A date-to-price mapping in JSON: an object whose values are numbers. *)
Definition is_number (v : json) : bool :=
  match v with
  | VInt _ | VFloat _ => true
  | _ => false
  end.

Definition is_price_series (v : json) : bool :=
  match v with
  | VObject members => forallb (λ member, is_number member.2) members
  | _ => false
  end.

(** The files of [cache_file_state] among the raw ones. *)
Definition json_of_prices (prices : gmap string float) : json :=
  VObject ((λ kv, (kv.1, VFloat kv.2)) <$> map_to_list prices).

Definition raw_of_file (f : cache_file_state) : raw_cache_file :=
  match f with
  | NoFile => RawNoFile
  | NotJson => RawNotJson
  | Document JNotObject => RawDocument RawNotObject
  | Document (JObject o) =>
      RawDocument (RawObject {| raw_timestamp := member_timestamp o;
                                raw_prices :=
                                  json_of_prices <$> member_prices o |})
  end.

(** The loop over the NBP reply: PLN per gram to USD per ounce. *)
Fixpoint nbp_prices (data : list nbp_item) (prices : gmap string float)
    : result (gmap string float) :=
  match data with
  | [] => Ok prices
  | item :: rest =>
      match item_data item with
      | None => Raise (KeyError "data")
      | Some date =>
          match item_cena item with
          | None => Raise (KeyError "cena")
          | Some converted =>
              price_pln_per_gram ← converted;
              let price_usd_per_oz :=
                (price_pln_per_gram * 31.1034768 * 0.25)%float in
              nbp_prices rest (<[date := price_usd_per_oz]> prices)
          end
      end
  end.

(** The loop over the GLD history rows: ten times the close. *)
Fixpoint yfinance_prices (rows : list (string * float))
    (prices : gmap string float) : gmap string float :=
  match rows with
  | [] => prices
  | (date_str, close) :: rest =>
      yfinance_prices rest (<[date_str := (close * 10)%float]> prices)
  end.

Definition get_gold_prices_yfinance (w : World)
    : py (option (gmap string float)) :=
  try_except
    (days ← gets days_to_show;
     modify (add_io (YFinanceRequest days)) ;;
     df ← lift (yf_history w days);
     let prices := yfinance_prices df ∅ in
     update_api_status "YFinance" true NoDetail ;;
     mret (Some prices))
    (λ e, modify (add_log (LogYFinanceError e)) ;;
          update_api_status "YFinance" false (ExnDetail e) ;;
          mret None).

(** [requests.get]: the reply, or the transport raises. *)
Definition requests_get {B : Type} (reply : http_reply B)
    : py (Z * result B) :=
  match reply with
  | RequestFails e => lift (Raise e)
  | Reply status_code json => mret (status_code, json)
  end.

Definition get_gold_prices_historical (w : World)
    : py (option (gmap string float)) :=
  try_except
    (cached_prices ← load_cached_prices w;
     if series_truthy cached_prices then
       update_api_status "NBP" true UsingCachedData ;;
       mret cached_prices
     else
       days ← gets days_to_show;
       modify (add_io (NbpRequest days)) ;;
       response ← requests_get (nbp_get w days);
       if bool_decide (response.1 = 200) then
         data ← lift response.2;
         prices ← lift (nbp_prices data ∅);
         cache_prices w prices ;;
         update_api_status "NBP" true NoDetail ;;
         mret (Some prices)
       else
         update_api_status "NBP" false (StatusCode response.1) ;;
         get_gold_prices_yfinance w)
    (λ e, modify (add_log (LogNbpError e)) ;;
          update_api_status "NBP" false (ExnDetail e) ;;
          get_gold_prices_yfinance w).

(** The loop over [data['prices']]: a date already present keeps its price. *)
Fixpoint bitcoin_prices (w : World) (data : list (Z * float))
    (prices : gmap string float) : result (gmap string float) :=
  match data with
  | [] => Ok prices
  | (timestamp, price) :: rest =>
      date ← local_date w timestamp;
      if bool_decide (date ∈ dom prices)
      then bitcoin_prices w rest prices
      else bitcoin_prices w rest (<[date := price]> prices)
  end.

Definition get_bitcoin_prices_historical (w : World)
    : py (option (gmap string float)) :=
  try_except
    (days ← gets days_to_show;
     modify (add_io (CoinGeckoRequest days)) ;;
     response ← requests_get (coingecko_get w days);
     if bool_decide (response.1 = 200) then
       data ← lift response.2;
       prices ← lift (bitcoin_prices w data ∅);
       update_api_status "CoinGecko" true NoDetail ;;
       mret (Some prices)
     else
       update_api_status "CoinGecko" false (StatusCode response.1) ;;
       mret None)
    (λ e, modify (add_log (LogBitcoinError e)) ;;
          update_api_status "CoinGecko" false (ExnDetail e) ;;
          mret None).

Definition calculate_ratio (gold_price btc_price : float) : py float :=
  mode ← gets ratio_mode;
  if bool_decide (mode = "btc_gold") then lift (truediv btc_price gold_price)
  else lift (truediv gold_price btc_price).

Definition get_ratio_column_name : py string :=
  mode ← gets ratio_mode;
  mret (if bool_decide (mode = "btc_gold") then "BTC/Gold Ratio"
        else "Gold/BTC Ratio").

(** [l[start:]] for a list. *)
Definition slice_from {A : Type} (start : Z) (l : list A) : list A :=
  let n := Z.of_nat (length l) in
  let i := if bool_decide (start < 0) then Z.max (start + n) 0
           else Z.min start n in
  drop (Z.to_nat i) l.

(** [sorted(set(a.keys()) & set(b.keys()))] *)
Definition sorted_common_keys (a b : gmap string float) : list string :=
  merge_sort String.le (elements (dom a ∩ dom b)).

(** The body of the [for date in dates] loop. *)
Definition refresh_row (gold_prices bitcoin_prices : gmap string float)
    (date : string) : py unit :=
  let gold_price := gold_prices !! date in
  let bitcoin_price := bitcoin_prices !! date in
  match gold_price, bitcoin_price with
  | Some g, Some b =>
      if float_truthy g && float_truthy b then
        ratio ← calculate_ratio g b;
        let point := {| row_date := date; row_gold := g;
                        row_bitcoin := b; row_ratio := ratio |} in
        modify (λ s, set_current_data (current_data s ++ [point]) s) ;;
        modify (λ s, set_tree (tree s ++ [point]) s)
      else mret ()
  | _, _ => mret ()
  end.

(** [int(self.days_to_show.get())] is an integer here, so the [ValueError]
    handler of the source has nothing to catch. *)
Definition refresh_data (w : World) : py unit :=
  days ← gets days_to_show;
  if bool_decide (days ≤ 0) then
    modify (add_dialog "Error" "Please enter a positive number of days")
  else
    modify (set_tree []) ;;
    modify (set_current_data []) ;;
    heading ← get_ratio_column_name;
    modify (set_ratio_heading heading) ;;
    gold_prices ← get_gold_prices_historical w;
    bitcoin_prices ← get_bitcoin_prices_historical w;
    if series_truthy gold_prices && series_truthy bitcoin_prices then
      let gold := default ∅ gold_prices in
      let bitcoin := default ∅ bitcoin_prices in
      limit ← gets days_to_show;
      let dates := slice_from (- limit) (sorted_common_keys gold bitcoin) in
      for_each dates (refresh_row gold bitcoin) ;;
      modify (set_refresh_label (LastRefreshed (now_refresh w)))
    else
      modify (set_refresh_label LabelFetchError) ;;
      modify (add_dialog "Error" "Failed to fetch price data").

(** [set_days]: the preset buttons. *)
Definition set_days (w : World) (days : Z) : py unit :=
  modify (set_days_to_show days) ;; refresh_data w.

(** ** [export_to_excel]

    The workbook is kept as the grid of its cells, by row and column from
    1, and the widths of its columns by column number.  What the user
    answers in the save dialog, whether the file can be written, the length
    of [str(value)] for a cell value and the text of an exception come from
    an [ExportEnv]. *)

Inductive cell_value : Type :=
  | CellText (text : string)
  | CellNumber (x : float).

Record cell : Type := {
  cell_content : cell_value;
  cell_header_style : bool         (* bold font on a grey fill *)
}.

Record workbook : Type := {
  wb_title : string;
  wb_cells : gmap (nat * nat) cell;
  wb_widths : gmap nat nat
}.

Record ExportEnv : Type := {
  asksaveasfilename : string;      (* the empty string when cancelled *)
  wb_save : string → result unit;
  str_len : cell_value → nat;      (* len(str(value)) *)
  exn_str : exn → string           (* str(e) *)
}.

(** What an export leaves outside [self]: the file written, the
    information dialog shown, the exception logged. *)
Record export_effects : Type := {
  saved : option (string * workbook);
  info_dialog : option (string * string);
  export_logged : option exn
}.

Definition no_effects : export_effects :=
  {| saved := None; info_dialog := None; export_logged := None |}.

(** The line feed of the dialog texts. *)
Definition newline : string :=
  String (Ascii.Ascii false true false true false false false false) "".

Definition header_cell (header : string) : cell :=
  {| cell_content := CellText header; cell_header_style := true |}.

Definition plain_cell (v : cell_value) : cell :=
  {| cell_content := v; cell_header_style := false |}.

(** [for col, header in enumerate(headers, 1)] *)
Fixpoint write_headers (headers : list string) (col : nat)
    (cells : gmap (nat * nat) cell) : gmap (nat * nat) cell :=
  match headers with
  | [] => cells
  | header :: rest =>
      write_headers rest (S col) (<[(1%nat, col) := header_cell header]> cells)
  end.

(** [for row, data in enumerate(self.current_data, 2)] *)
Fixpoint write_data (data : list RatioPoint) (row : nat)
    (cells : gmap (nat * nat) cell) : gmap (nat * nat) cell :=
  match data with
  | [] => cells
  | point :: rest =>
      write_data rest (S row)
        (<[(row, 4%nat) := plain_cell (CellNumber (row_ratio point))]>
           (<[(row, 3%nat) := plain_cell (CellNumber (row_bitcoin point))]>
              (<[(row, 2%nat) := plain_cell (CellNumber (row_gold point))]>
                 (<[(row, 1%nat) := plain_cell (CellText (row_date point))]>
                    cells))))
  end.

(** [ws.max_row] and [ws.max_column]. *)
Definition max_row (cells : gmap (nat * nat) cell) : nat :=
  max_list ((λ kv, kv.1.1) <$> map_to_list cells).

Definition max_column (cells : gmap (nat * nat) cell) : nat :=
  max_list ((λ kv, kv.1.2) <$> map_to_list cells).

(** One element of [ws.columns]: the cells of rows 1 to [max_row]. *)
Definition column_cells (cells : gmap (nat * nat) cell) (col : nat)
    : list (option cell) :=
  (λ row, cells !! (row, col)) <$> seq 1 (max_row cells).

(** [len(str(cell.value))]; an empty cell has the value [None]. *)
Definition value_len (env : ExportEnv) (c : option cell) : nat :=
  match c with
  | Some c => str_len env (cell_content c)
  | None => 4%nat
  end.

(** The inner loop over the cells of a column. *)
Fixpoint max_length (env : ExportEnv) (column : list (option cell))
    (acc : nat) : nat :=
  match column with
  | [] => acc
  | c :: rest =>
      max_length env rest
        (if bool_decide (acc < value_len env c)%nat then value_len env c
         else acc)
  end.

(** [for column in ws.columns]: the width is the longest text plus two. *)
Definition adjust_widths (env : ExportEnv) (cells : gmap (nat * nat) cell)
    : gmap nat nat :=
  foldl (λ widths col,
           <[col := (max_length env (column_cells cells col) 0 + 2)%nat]> widths)
        ∅ (seq 1 (max_column cells)).

Definition export_to_excel (env : ExportEnv) : py export_effects :=
  data ← gets current_data;
  match data with
  | [] =>
      modify (add_dialog "Error" "No data to export!") ;;
      mret no_effects
  | _ :: _ =>
      try_except
        (let file_path := asksaveasfilename env in
         if bool_decide (file_path = "") then mret no_effects
         else
           ratio_name ← get_ratio_column_name;
           let headers := ["Date"; "Gold Price (USD)"; "Bitcoin Price (USD)";
                           ratio_name] in
           let cells := write_data data 2 (write_headers headers 1 ∅) in
           let wb := {| wb_title := "Price Ratio Data"; wb_cells := cells;
                        wb_widths := adjust_widths env cells |} in
           lift (wb_save env file_path) ;;
           mret {| saved := Some (file_path, wb);
                   info_dialog :=
                     Some ("Success",
                           "Data exported successfully to:" +:+ newline
                             +:+ file_path);
                   export_logged := None |})
        (λ e,
           modify (add_dialog "Error"
                     ("An error occurred while exporting:" +:+ newline
                        +:+ exn_str env e)) ;;
           mret {| saved := None; info_dialog := None;
                   export_logged := Some e |})
  end.

(** * Vocabulary of the statements *)

(** The file holds a well-formed record whose age at [now] is below the TTL. *)
Inductive fresh_record (now : datetime)
    : cache_file_state → gmap string float → Prop :=
  | fresh_record_intro (t : datetime) (prices : gmap string float) :
      now - t < timedelta_hours 1 →
      fresh_record now
        (Document (JObject {| member_timestamp := Some (TsNumber t);
                              member_prices := Some prices |})) prices.

(** The fields of [self] that no adapter and no cache operation touches. *)
Definition same_view (s s' : App) : Prop :=
  days_to_show s' = days_to_show s ∧ ratio_mode s' = ratio_mode s ∧
  current_data s' = current_data s ∧ tree s' = tree s ∧
  ratio_heading s' = ratio_heading s ∧ refresh_label s' = refresh_label s ∧
  dialogs s' = dialogs s.

(** The cache lookup yields nothing usable: [None] or an empty dict. *)
Definition cache_misses (w : World) (s : App) : Prop :=
  ∃ r, (load_cached_prices w s).2 = Ok r ∧ series_truthy r = false.

(** The primary source fails: the transport raises, the status is not 200,
    or the body cannot be turned into prices. *)
Definition primary_fails (w : World) (days : Z) : Prop :=
  match nbp_get w days with
  | RequestFails _ => True
  | Reply status_code json =>
      status_code ≠ 200 ∨
      ∃ e, (json ≫= λ data, nbp_prices data ∅) = Raise e
  end.

(** What the fallback adapter returns, as a function of the world. *)
Definition yfinance_result (w : World) (days : Z)
    : option (gmap string float) :=
  match yf_history w days with
  | Ok rows => Some (yfinance_prices rows ∅)
  | Raise _ => None
  end.

(** The three shapes a run of the gold chain can take. *)
Inductive gold_chain_path (days : Z) : list io_event → Prop :=
  | path_cache : gold_chain_path days [CacheRead]
  | path_primary :
      gold_chain_path days [CacheRead; NbpRequest days; CacheWrite]
  | path_fallback :
      gold_chain_path days [CacheRead; NbpRequest days; YFinanceRequest days].

(** Lines 296-304: the table and the dataset are emptied, the heading set. *)
Definition cleared (s : App) : App :=
  set_ratio_heading
    (if bool_decide (ratio_mode s = "btc_gold") then "BTC/Gold Ratio"
     else "Gold/BTC Ratio")
    (set_current_data [] (set_tree [] s)).

Definition value_or_none {A : Type} (r : result (option A)) : option A :=
  match r with
  | Ok a => a
  | Raise _ => None
  end.

(** Lines 307-308: the two series a refresh works on. *)
Definition fetch_prices (w : World) (s : App)
    : option (gmap string float) * option (gmap string float) :=
  let gold_run := get_gold_prices_historical w (cleared s) in
  let bitcoin_run := get_bitcoin_prices_historical w gold_run.1 in
  (value_or_none gold_run.2, value_or_none bitcoin_run.2).

(** What one turn of the loop appends for a date, read off the loop body. *)
Definition ratio_point (mode : string) (gold bitcoin : gmap string float)
    (date : string) : option RatioPoint :=
  match gold !! date, bitcoin !! date with
  | Some g, Some b =>
      if float_truthy g && float_truthy b then
        Some {| row_date := date; row_gold := g; row_bitcoin := b;
                row_ratio := if bool_decide (mode = "btc_gold")
                             then PrimFloat.div b g else PrimFloat.div g b |}
      else None
  | _, _ => None
  end.

Definition ratio_rows (mode : string) (limit : Z)
    (gold bitcoin : gmap string float) : list RatioPoint :=
  omap (ratio_point mode gold bitcoin)
       (slice_from (- limit) (sorted_common_keys gold bitcoin)).

Definition add_points (points : list RatioPoint) (s : App) : App :=
  set_tree (tree s ++ points) (set_current_data (current_data s ++ points) s).

(** The state a refresh ends in, for a positive day count. *)
Definition refreshed (w : World) (s : App) : App :=
  let gold_run := get_gold_prices_historical w (cleared s) in
  let bitcoin_run := get_bitcoin_prices_historical w gold_run.1 in
  let '(gold_prices, bitcoin_prices) := fetch_prices w s in
  if series_truthy gold_prices && series_truthy bitcoin_prices then
    set_refresh_label (LastRefreshed (now_refresh w))
      (add_points (ratio_rows (ratio_mode s) (days_to_show s)
                     (default ∅ gold_prices) (default ∅ bitcoin_prices))
                  bitcoin_run.1)
  else
    add_dialog "Error" "Failed to fetch price data"
      (set_refresh_label LabelFetchError bitcoin_run.1).

(** Following the specification: [out] lists, in ascending order, the
    [limit] latest dates present in both series (all of them if there are
    fewer). *)
Definition latest_common_dates (limit : nat) (gold bitcoin : gmap string float)
    (out : list string) : Prop :=
  StronglySorted (strict String.le) out ∧
  (∀ d, d ∈ out → d ∈ dom gold ∧ d ∈ dom bitcoin) ∧
  length out = (limit `min` size (dom gold ∩ dom bitcoin))%nat ∧
  (∀ d d', d ∈ dom gold → d ∈ dom bitcoin → d ∉ out → d' ∈ out →
           strict String.le d d').

(** The dates that get a row: those whose two prices are both truthy. *)
Definition has_row (gold bitcoin : gmap string float) (date : string) : bool :=
  price_truthy (gold !! date) && price_truthy (bitcoin !! date).

(** The raw file parses to an object with a timestamp that names a datetime
    less than an hour before [now] and with a ['prices'] member. *)
Inductive raw_fresh_record (now : datetime)
    : raw_cache_file → json → Prop :=
  | raw_fresh_record_intro (t : datetime) (payload : json) :
      now - t < timedelta_hours 1 →
      raw_fresh_record now
        (RawDocument (RawObject {| raw_timestamp := Some (TsNumber t);
                                   raw_prices := Some payload |})) payload.

(** An item of the NBP reply the loop can use: it has its date, and a
    price that [float()] turns into a number. *)
Definition usable_item (item : nbp_item) : Prop :=
  is_Some (item_data item) ∧ ∃ x, item_cena item = Some (Ok x).

(** A leg that brought nothing: no series, or a series without a date. *)
Definition absent_or_empty (o : option (gmap string float)) : Prop :=
  o = None ∨ o = Some ∅.

(** The cell a data row puts in a column. *)
Definition data_cell (point : RatioPoint) (col : nat) : option cell :=
  match col with
  | 1 => Some (plain_cell (CellText (row_date point)))
  | 2 => Some (plain_cell (CellNumber (row_gold point)))
  | 3 => Some (plain_cell (CellNumber (row_bitcoin point)))
  | 4 => Some (plain_cell (CellNumber (row_ratio point)))
  | _ => None
  end%nat.

(** The workbook an export builds from the dataset and the mode. *)
Definition exported_workbook (env : ExportEnv) (s : App) : workbook :=
  let headers :=
    ["Date"; "Gold Price (USD)"; "Bitcoin Price (USD)";
     if bool_decide (ratio_mode s = "btc_gold") then "BTC/Gold Ratio"
     else "Gold/BTC Ratio"] in
  let cells := write_data (current_data s) 2 (write_headers headers 1 ∅) in
  {| wb_title := "Price Ratio Data"; wb_cells := cells;
     wb_widths := adjust_widths env cells |}.

(** * A concrete session *)

(** The fields as [__init__] leaves them before its first refresh, next to
    a cache file in a given state; the status labels read "Waiting...". *)
Definition initial_app (file : cache_file_state) : App :=
  {| days_to_show := 7; ratio_mode := "btc_gold"; current_data := [];
     api_status := ∅; status_labels := ∅; tree := []; ratio_heading := "Ratio";
     refresh_label := LabelEmpty; dialogs := []; log := [];
     cache_file := file; io_trace := [] |}.

Definition day_ms : Z := 86400000.
Definition jan1_ms : Z := 1704067200000.          (* 2024-01-01T00:00:00Z *)
Definition noon_jan5 : datetime := 1704456000000000.

(** Calendar dates of a machine on UTC, for the first days of 2024. *)
Definition utc_date (timestamp : Z) : result string :=
  match (timestamp - jan1_ms) `div` day_ms with
  | 0 => Ok "2024-01-01"
  | 1 => Ok "2024-01-02"
  | 2 => Ok "2024-01-03"
  | 3 => Ok "2024-01-04"
  | _ => Raise OverflowError
  end.

(** Every source answers: NBP has three days, CoinGecko four observations
    of the three days that follow the first, two of them on one day. *)
Definition demo_world : World :=
  {| now_load := noon_jan5; now_store := noon_jan5; now_refresh := noon_jan5;
     cache_write := WriteOk;
     nbp_get := λ _,
       Reply 200 (Ok [NbpItem (Some "2024-01-01") (Some (Ok 250%float));
                      NbpItem (Some "2024-01-02") (Some (Ok 260%float));
                      NbpItem (Some "2024-01-03") (Some (Ok 255%float))]);
     yf_history := λ _, Ok [("2024-01-02", 185.5%float);
                            ("2024-01-03", 186.25%float)];
     coingecko_get := λ _,
       Reply 200 (Ok [(jan1_ms + day_ms, 42000%float);
                      (jan1_ms + day_ms + 3600000, 42100%float);
                      (jan1_ms + 2 * day_ms, 43000%float);
                      (jan1_ms + 3 * day_ms, 44000%float)]);
     local_date := utc_date |}.

(** The NBP prices of [demo_world] in USD per ounce. *)
Definition nbp_three_days : gmap string float :=
  {["2024-01-01" := (250 * 31.1034768 * 0.25)%float;
    "2024-01-02" := (260 * 31.1034768 * 0.25)%float;
    "2024-01-03" := (255 * 31.1034768 * 0.25)%float]}.

(** The same world with NBP answering 503. *)
Definition nbp_down_world : World :=
  {| now_load := noon_jan5; now_store := noon_jan5; now_refresh := noon_jan5;
     cache_write := WriteOk;
     nbp_get := λ _, Reply 503 (Raise JSONDecodeError);
     yf_history := yf_history demo_world;
     coingecko_get := coingecko_get demo_world;
     local_date := utc_date |}.

(** NBP is down and GLD has no rows for the window. *)
Definition no_gold_world : World :=
  {| now_load := noon_jan5; now_store := noon_jan5; now_refresh := noon_jan5;
     cache_write := WriteOk;
     nbp_get := λ _, RequestFails RequestException;
     yf_history := λ _, Ok [];
     coingecko_get := coingecko_get demo_world;
     local_date := utc_date |}.

(** The disk refuses the cache write. *)
Definition disk_full_world : World :=
  {| now_load := noon_jan5; now_store := noon_jan5; now_refresh := noon_jan5;
     cache_write := DumpFails;
     nbp_get := nbp_get demo_world;
     yf_history := yf_history demo_world;
     coingecko_get := coingecko_get demo_world;
     local_date := utc_date |}.

(** GLD closes at zero on the latest day that bitcoin has too. *)
Definition zero_latest_world : World :=
  {| now_load := noon_jan5; now_store := noon_jan5; now_refresh := noon_jan5;
     cache_write := WriteOk;
     nbp_get := λ _, Reply 404 (Raise JSONDecodeError);
     yf_history := λ _, Ok [("2024-01-02", 185.5%float);
                            ("2024-01-03", 0%float)];
     coingecko_get := λ _,
       Reply 200 (Ok [(jan1_ms + day_ms, 42000%float);
                      (jan1_ms + 2 * day_ms, 43000%float)]);
     local_date := utc_date |}.

(** A cache file written by hand a minute before noon: its ['prices'] is a
    list. *)
Definition list_in_cache : raw_cache_file :=
  RawDocument
    (RawObject {| raw_timestamp :=
                    Some (TsNumber (noon_jan5 - timedelta_seconds 60));
                  raw_prices := Some (VArray [VInt 1; VInt 2]) |}).

(** GLD closes at zero on one of the days. *)
Definition zero_close_world : World :=
  {| now_load := noon_jan5; now_store := noon_jan5; now_refresh := noon_jan5;
     cache_write := WriteOk;
     nbp_get := λ _, Reply 404 (Raise JSONDecodeError);
     yf_history := λ _, Ok [("2024-01-02", 0%float);
                            ("2024-01-03", 186.25%float)];
     coingecko_get := coingecko_get demo_world;
     local_date := utc_date |}.

Definition gold_2000 : gmap string float := {["2024-01-01" := 2000%float]}.

(** A cache record of gold at 2000 on one day, captured [age] before noon. *)
Definition cached_gold (age : timedelta) : cache_file_state :=
  Document (JObject {| member_timestamp := Some (TsNumber (noon_jan5 - age));
                       member_prices := Some gold_2000 |}).

(** Bitcoin at 40000 on that day. *)
Definition one_day_world : World :=
  {| now_load := noon_jan5; now_store := noon_jan5; now_refresh := noon_jan5;
     cache_write := WriteOk;
     nbp_get := λ _, RequestFails RequestException;
     yf_history := λ _, Raise RequestException;
     coingecko_get := λ _, Reply 200 (Ok [(jan1_ms, 40000%float)]);
     local_date := utc_date |}.

(** The user picks a path, the disk takes the file, numbers print in six
    characters and texts in as many as they have bytes. *)
Definition demo_export : ExportEnv :=
  {| asksaveasfilename := "ratios.xlsx";
     wb_save := λ _, Ok ();
     str_len := λ v, match v with
                     | CellText t => String.length t
                     | CellNumber _ => 6%nat
                     end;
     exn_str := λ _, "error" |}.

(** The same, on a disk that refuses the file. *)
Definition failing_export : ExportEnv :=
  {| asksaveasfilename := "ratios.xlsx";
     wb_save := λ _, Raise OSError;
     str_len := str_len demo_export;
     exn_str := λ _, "error" |}.

(** The same, with the dialog cancelled. *)
Definition cancelled_export : ExportEnv :=
  {| asksaveasfilename := "";
     wb_save := λ _, Ok ();
     str_len := str_len demo_export;
     exn_str := λ _, "error" |}.

(** [demo_world] as seen by a read of the cache [delay] after noon. *)
Definition later_world (delay : timedelta) : World :=
  {| now_load := noon_jan5 + delay; now_store := noon_jan5 + delay;
     now_refresh := noon_jan5 + delay;
     cache_write := WriteOk;
     nbp_get := nbp_get demo_world;
     yf_history := yf_history demo_world;
     coingecko_get := coingecko_get demo_world;
     local_date := utc_date |}.

(** Neither gold source answers. *)
Definition gold_down_world : World :=
  {| now_load := noon_jan5; now_store := noon_jan5; now_refresh := noon_jan5;
     cache_write := WriteOk;
     nbp_get := λ _, RequestFails RequestException;
     yf_history := λ _, Raise RequestException;
     coingecko_get := coingecko_get demo_world;
     local_date := utc_date |}.

(** Bitcoin is known for the second of January only. *)
Definition other_day_world : World :=
  {| now_load := noon_jan5; now_store := noon_jan5; now_refresh := noon_jan5;
     cache_write := WriteOk;
     nbp_get := λ _, RequestFails RequestException;
     yf_history := λ _, Raise RequestException;
     coingecko_get := λ _, Reply 200 (Ok [(jan1_ms + day_ms, 40000%float)]);
     local_date := utc_date |}.

(** The state after the first refresh of [demo_world]. *)
Definition demo_refreshed : App :=
  (refresh_data demo_world (initial_app NoFile)).1.

(** * Proof support *)

Arguments series_truthy : simpl never.
Arguments load_cached_prices : simpl never.
Arguments cache_prices : simpl never.
Arguments get_gold_prices_yfinance : simpl never.
Arguments get_gold_prices_historical : simpl never.
Arguments get_bitcoin_prices_historical : simpl never.
Arguments export_to_excel : simpl never.

Ltac py_unfold :=
  unfold try_except, update_api_status, requests_get, gets, modify, lift,
    mbind, py_bind, mret, py_ret, result_bind, result_ret in *.

(** Closes a branch of the chain that ends in the fallback adapter, given
    a fact [H] about every run of that adapter. *)
Ltac fall_back H :=
  match goal with
  | |- context [get_gold_prices_yfinance ?w ?s1] =>
      let Hx := fresh "Hx" in
      let Hrun := fresh "Hrun" in
      let Hrest := fresh "Hrest" in
      edestruct (H s1) as [? Hx];
      [try done; try apply lookup_insert_eq;
       try (simpl; by rewrite <- ?app_assoc)..|];
      repeat match type of Hx with ex _ => destruct Hx as [? Hx] end;
      destruct Hx as [Hrun Hrest];
      rewrite Hrun; simpl;
      repeat match goal with |- ex _ => eexists end;
      split; [reflexivity|exact Hrest]
  end.

(** * Properties *)

(** ** Stepping through [py] computations *)

Lemma bind_run {A B : Type} (m : py A) (k : A → py B) (s : App) :
  (m ≫= k) s = match m s with
               | (s', Ok a) => k a s'
               | (s', Raise e) => (s', Raise e)
               end.
Proof. reflexivity. Qed.

(** ** The cache store *)

(** On a file whose ['prices'] member is a series, [load_cached_prices]
    never raises; it returns the stored series exactly when the file holds
    a record younger than one hour, and [None] in every other case. *)
Theorem load_cached_prices_spec (w : World) (s : App) :
  ∃ r : option (gmap string float),
    load_cached_prices w s = (add_io CacheRead s, Ok r) ∧
    (∀ prices, r = Some prices ↔
               fresh_record (now_load w) (cache_file s) prices) ∧
    (r = None ↔ ¬ ∃ prices, fresh_record (now_load w) (cache_file s) prices).
Proof.
  unfold load_cached_prices. py_unfold. simpl.
  destruct (cache_file s) as [| |[[[[t| |]|] [prices|]]|]] eqn:Hf; simpl;
    try (eexists; split; [reflexivity|]; split;
         [intros p; split; [discriminate|inversion 1]
         |split; [intros _ [p Hp]; inversion Hp|reflexivity]]).
  - case_bool_decide as Hage; simpl.
    + eexists; split; [reflexivity|]. split.
      * intros p; split.
        -- intros [= <-]. by constructor.
        -- inversion 1; by subst.
      * split; [discriminate|]. intros []. eexists. by constructor.
    + eexists; split; [reflexivity|]. split.
      * intros p; split; [discriminate|]. inversion 1; subst. lia.
      * split; [|reflexivity]. intros _ [p Hp]. inversion Hp; subst. lia.
  - case_bool_decide as Hage; simpl.
    + eexists; split; [reflexivity|]. split.
      * intros p; split; [discriminate|inversion 1].
      * split; [intros _ [p Hp]; inversion Hp|reflexivity].
    + eexists; split; [reflexivity|]. split.
      * intros p; split; [discriminate|inversion 1].
      * split; [intros _ [p Hp]; inversion Hp|reflexivity].
Qed.

Lemma same_view_refl (s : App) : same_view s s.
Proof. by repeat split. Qed.

Lemma same_view_trans (s1 s2 s3 : App) :
  same_view s1 s2 → same_view s2 s3 → same_view s1 s3.
Proof. unfold same_view. intuition congruence. Qed.

Lemma load_cached_prices_run (w : World) (s : App) :
  ∃ r, load_cached_prices w s = (add_io CacheRead s, Ok r).
Proof.
  unfold load_cached_prices. py_unfold. simpl.
  destruct (cache_file s) as [| |[[[[t| |]|] [prices|]]|]]; simpl;
    try case_bool_decide; simpl; eauto.
Qed.

Lemma cache_prices_run (w : World) (prices : gmap string float) (s : App) :
  ∃ s', cache_prices w prices s = (s', Ok ()) ∧ same_view s s' ∧
        api_status s' = api_status s ∧
        io_trace s' = io_trace s ++ [CacheWrite].
Proof.
  unfold cache_prices, json_dump. py_unfold. simpl.
  destruct (cache_write w); simpl; eexists; (split; [reflexivity|]);
    by repeat split.
Qed.

(** ** The gold chain *)

Lemma yfinance_run (w : World) (s : App) :
  ∃ s', get_gold_prices_yfinance w s =
          (s', Ok (yfinance_result w (days_to_show s))) ∧
        same_view s s' ∧
        api_status s' =
          <["YFinance" := bool_decide (is_Some (yfinance_result w (days_to_show s)))]>
            (api_status s) ∧
        io_trace s' = io_trace s ++ [YFinanceRequest (days_to_show s)].
Proof.
  unfold get_gold_prices_yfinance, yfinance_result. py_unfold. simpl.
  destruct (yf_history w (days_to_show s)) as [rows|e]; simpl;
    (eexists; split; [reflexivity|]); by repeat split.
Qed.

Lemma gold_chain_run (w : World) (s : App) :
  ∃ s' r path,
    get_gold_prices_historical w s = (s', Ok r) ∧ same_view s s' ∧
    gold_chain_path (days_to_show s) path ∧
    io_trace s' = io_trace s ++ path.
Proof.
  unfold get_gold_prices_historical.
  destruct (load_cached_prices_run w s) as [r Hload].
  unfold try_except at 1. rewrite bind_run, Hload.
  destruct (series_truthy r) eqn:Hr.
  { py_unfold. simpl. do 3 eexists. split; [reflexivity|].
    split; [by repeat split|]. split; [constructor|done]. }
  py_unfold. simpl.
  set (s0 := add_io (NbpRequest (days_to_show s)) (add_io CacheRead s)).
  assert (Hfall : ∀ s1, same_view s s1 → days_to_show s1 = days_to_show s →
            io_trace s1 = io_trace s0 →
            ∃ s' r' path,
              get_gold_prices_yfinance w s1 = (s', Ok r') ∧ same_view s s' ∧
              gold_chain_path (days_to_show s) path ∧
              io_trace s' = io_trace s ++ path).
  { intros s1 Hv Hd Hio.
    destruct (yfinance_run w s1) as (s' & -> & Hv' & _ & Hio').
    do 3 eexists. split; [reflexivity|].
    split; [by eapply same_view_trans|]. split; [apply path_fallback|].
    rewrite Hio', Hio, Hd. simpl. by rewrite <- !app_assoc. }
  assert (Hview0 : same_view s s0) by by repeat split.
  destruct (nbp_get w (days_to_show s)) as [e|code [data|e]]; simpl.
  - fall_back Hfall.
  - case_bool_decide; simpl.
    + destruct (nbp_prices data ∅) as [prices|e]; simpl.
      * destruct (cache_prices_run w prices s0) as (s1 & -> & Hv & _ & Hio).
        simpl. do 3 eexists. split; [reflexivity|].
        split; [by repeat split; apply Hv|]. split; [apply path_primary|].
        simpl. rewrite Hio. simpl. by rewrite <- !app_assoc.
      * fall_back Hfall.
    + fall_back Hfall.
  - case_bool_decide; simpl; fall_back Hfall.
Qed.

(** C1: every run of the gold chain reads the cache first, asks the primary
    source only after that and the fallback only after the primary; when the
    cache misses, the primary source fails and the fallback succeeds, the
    statuses read NBP failed and YFinance succeeded and the chain returns
    the fallback adapter's series as it is. *)
Theorem gold_chain_fallback (w : World) (s : App) :
  (∃ s' r path,
     get_gold_prices_historical w s = (s', Ok r) ∧
     gold_chain_path (days_to_show s) path ∧
     io_trace s' = io_trace s ++ path) ∧
  (cache_misses w s →
   primary_fails w (days_to_show s) →
   ∀ rows, yf_history w (days_to_show s) = Ok rows →
   ∃ s', get_gold_prices_historical w s =
           (s', Ok (Some (yfinance_prices rows ∅))) ∧
         api_status s' !! "NBP" = Some false ∧
         api_status s' !! "YFinance" = Some true ∧
         io_trace s' =
           io_trace s ++ [CacheRead; NbpRequest (days_to_show s);
                          YFinanceRequest (days_to_show s)] ∧
         ∀ s0, days_to_show s0 = days_to_show s →
               (get_gold_prices_yfinance w s0).2 =
                 (get_gold_prices_historical w s).2).
Proof.
  split.
  { destruct (gold_chain_run w s) as (s' & r & path & Hrun & _ & Hpath & Hio).
    by exists s', r, path. }
  intros (r & Hr & Hmiss) Hprim rows Hyf.
  destruct (load_cached_prices_run w s) as [r' Hload].
  rewrite Hload in Hr. simpl in Hr. injection Hr as ->.
  assert (Hfall : ∀ s1, days_to_show s1 = days_to_show s →
            api_status s1 !! "NBP" = Some false →
            io_trace s1 = io_trace s ++ [CacheRead; NbpRequest (days_to_show s)] →
            ∃ s', get_gold_prices_yfinance w s1 =
                    (s', Ok (Some (yfinance_prices rows ∅))) ∧
                  api_status s' !! "NBP" = Some false ∧
                  api_status s' !! "YFinance" = Some true ∧
                  io_trace s' =
                    io_trace s ++ [CacheRead; NbpRequest (days_to_show s);
                                   YFinanceRequest (days_to_show s)]).
  { intros s1 Hd Hst Hio.
    destruct (yfinance_run w s1) as (s' & Hrun & _ & Hst' & Hio').
    rewrite Hd in Hrun, Hst', Hio'. unfold yfinance_result in Hrun, Hst'.
    rewrite Hyf in Hrun, Hst'. exists s'. split; [done|].
    rewrite Hst', Hio', Hio. split; [by rewrite lookup_insert_ne|].
    split; [by rewrite lookup_insert_eq|]. by rewrite <- app_assoc. }
  assert (Hchain : ∃ s', get_gold_prices_historical w s =
                     (s', Ok (Some (yfinance_prices rows ∅))) ∧
                   api_status s' !! "NBP" = Some false ∧
                   api_status s' !! "YFinance" = Some true ∧
                   io_trace s' =
                     io_trace s ++ [CacheRead; NbpRequest (days_to_show s);
                                    YFinanceRequest (days_to_show s)]).
  { unfold get_gold_prices_historical.
    unfold try_except at 1. rewrite bind_run, Hload, Hmiss.
    py_unfold. simpl. unfold primary_fails in Hprim.
    destruct (nbp_get w (days_to_show s)) as [e|code [data|e]]; simpl.
    - fall_back Hfall.
    - case_bool_decide as Hcode; simpl.
      + destruct Hprim as [?|[e He]]; [done|]. simpl in He.
        rewrite He. simpl. fall_back Hfall.
      + fall_back Hfall.
    - case_bool_decide as Hcode; simpl; fall_back Hfall. }
  destruct Hchain as (s' & Hrun & Hnbp & Hyfs & Hio).
  exists s'. repeat (split; [done|]).
  intros s0 Hd. rewrite Hrun. simpl.
  destruct (yfinance_run w s0) as (s0' & -> & _). simpl.
  unfold yfinance_result. by rewrite Hd, Hyf.
Qed.

(** ** The crypto adapter *)

Lemma bitcoin_prices_app (w : World) (l1 l2 : list (Z * float))
    (acc : gmap string float) :
  bitcoin_prices w (l1 ++ l2) acc =
  bitcoin_prices w l1 acc ≫= bitcoin_prices w l2.
Proof.
  revert acc. induction l1 as [|[ts price] l1 IH]; intros acc; simpl; [done|].
  destruct (local_date w ts) as [date|e]; simpl; [|done].
  case_bool_decide; apply IH.
Qed.

Lemma bitcoin_prices_total (w : World) (data : list (Z * float))
    (acc : gmap string float) :
  (∀ x, x ∈ data → ∃ date, local_date w x.1 = Ok date) →
  ∃ prices, bitcoin_prices w data acc = Ok prices.
Proof.
  revert acc. induction data as [|[ts price] data IH]; intros acc Hconv; simpl.
  - by eexists.
  - destruct (Hconv (ts, price)) as [date Hd]; [left|]. simpl in Hd.
    rewrite Hd. simpl.
    case_bool_decide; apply IH; intros x Hx; apply Hconv; by right.
Qed.

(** A date that already has a price keeps it to the end of the loop. *)
Lemma bitcoin_prices_keeps (w : World) (data : list (Z * float))
    (acc prices : gmap string float) (d : string) (v : float) :
  bitcoin_prices w data acc = Ok prices →
  acc !! d = Some v → prices !! d = Some v.
Proof.
  revert acc. induction data as [|[ts price] data IH]; intros acc; simpl.
  - by intros [= ->].
  - destruct (local_date w ts) as [date|e]; simpl; [|done].
    case_bool_decide as Hin; intros Hrun Hacc; [by eapply IH|].
    eapply IH; [done|]. rewrite lookup_insert_ne; [done|].
    intros ->. apply Hin, elem_of_dom. by eexists.
Qed.

(** Observations of other dates leave a date without a price. *)
Lemma bitcoin_prices_skips (w : World) (data : list (Z * float))
    (acc prices : gmap string float) (d : string) :
  bitcoin_prices w data acc = Ok prices →
  (∀ x, x ∈ data → local_date w x.1 ≠ Ok d) →
  acc !! d = None → prices !! d = None.
Proof.
  revert acc. induction data as [|[ts price] data IH]; intros acc; simpl.
  - by intros [= ->].
  - destruct (local_date w ts) as [date|e] eqn:Hd; simpl; [|done].
    intros Hrun Hother Hacc.
    assert (date ≠ d).
    { intros ->. eapply (Hother (ts, price)); [left|done]. }
    assert (∀ x, x ∈ data → local_date w x.1 ≠ Ok d).
    { intros x Hx. apply Hother. by right. }
    case_bool_decide; (eapply IH; [done..|]); [done|].
    by rewrite lookup_insert_ne.
Qed.

Lemma bitcoin_run (w : World) (s : App) :
  ∃ s' r, get_bitcoin_prices_historical w s = (s', Ok r) ∧ same_view s s' ∧
          cache_file s' = cache_file s ∧
          io_trace s' = io_trace s ++ [CoinGeckoRequest (days_to_show s)].
Proof.
  unfold get_bitcoin_prices_historical. py_unfold. simpl.
  destruct (coingecko_get w (days_to_show s)) as [e|code [data|e]]; simpl;
    try case_bool_decide; simpl;
    try destruct (bitcoin_prices w data ∅); simpl;
    (do 2 eexists; split; [reflexivity|]; by repeat split).
Qed.

(** C3: when the reply holds several observations of one calendar date, the
    series returned by the crypto adapter gives that date the price of the
    first of them in the reply. *)
Theorem bitcoin_first_observation_wins (w : World) (s : App)
    (before after : list (Z * float)) (timestamp : Z) (price : float)
    (date : string) :
  coingecko_get w (days_to_show s) =
    Reply 200 (Ok (before ++ (timestamp, price) :: after)) →
  (∀ x, x ∈ before ++ (timestamp, price) :: after →
        ∃ d, local_date w x.1 = Ok d) →
  local_date w timestamp = Ok date →
  (∀ x, x ∈ before → local_date w x.1 ≠ Ok date) →
  ∃ s' prices,
    get_bitcoin_prices_historical w s = (s', Ok (Some prices)) ∧
    prices !! date = Some price ∧
    api_status s' !! "CoinGecko" = Some true.
Proof.
  intros Hreply Hconv Hdate Hfirst.
  destruct (bitcoin_prices_total w _ ∅ Hconv) as [prices Hloop].
  unfold get_bitcoin_prices_historical. py_unfold. simpl.
  rewrite Hreply. simpl. rewrite Hloop. simpl.
  do 2 eexists. split; [reflexivity|]. split; [|apply lookup_insert_eq].
  rewrite bitcoin_prices_app in Hloop.
  destruct (bitcoin_prices w before ∅) as [mid|e] eqn:Hbefore; [|done].
  simpl in Hloop. rewrite Hdate in Hloop. simpl in Hloop.
  assert (Hmid : mid !! date = None).
  { eapply bitcoin_prices_skips; [done..|]. apply lookup_empty. }
  rewrite bool_decide_eq_false_2 in Hloop.
  - eapply bitcoin_prices_keeps; [done|]. apply lookup_insert_eq.
  - rewrite elem_of_dom, Hmid. by intros [].
Qed.

(** ** The refresh cycle *)

Lemma add_points_nil (s : App) : add_points [] s = s.
Proof. destruct s. unfold add_points. simpl. by rewrite !app_nil_r. Qed.

Lemma add_points_app (l1 l2 : list RatioPoint) (s : App) :
  add_points l2 (add_points l1 s) = add_points (l1 ++ l2) s.
Proof. destruct s. unfold add_points. simpl. by rewrite !app_assoc. Qed.

Lemma float_truthy_eqb (x : float) :
  float_truthy x = true → PrimFloat.eqb x 0%float = false.
Proof. unfold float_truthy. by destruct (PrimFloat.eqb x 0). Qed.

Lemma calculate_ratio_run (g b : float) (s : App) :
  float_truthy g = true → float_truthy b = true →
  calculate_ratio g b s =
    (s, Ok (if bool_decide (ratio_mode s = "btc_gold")
            then PrimFloat.div b g else PrimFloat.div g b)).
Proof.
  intros Hg%float_truthy_eqb Hb%float_truthy_eqb.
  unfold calculate_ratio, truediv. py_unfold.
  case_bool_decide; by rewrite ?Hg, ?Hb.
Qed.

Lemma refresh_row_run (gold bitcoin : gmap string float) (date : string)
    (s : App) :
  refresh_row gold bitcoin date s =
    (add_points (option_list (ratio_point (ratio_mode s) gold bitcoin date)) s,
     Ok ()).
Proof.
  unfold refresh_row, ratio_point.
  destruct (gold !! date) as [g|], (bitcoin !! date) as [b|];
    try (by rewrite add_points_nil).
  destruct (float_truthy g) eqn:Hg, (float_truthy b) eqn:Hb; simpl;
    try (by rewrite add_points_nil).
  rewrite bind_run, calculate_ratio_run by done. reflexivity.
Qed.

Lemma for_each_refresh_row (gold bitcoin : gmap string float)
    (dates : list string) (s : App) :
  for_each dates (refresh_row gold bitcoin) s =
    (add_points (omap (ratio_point (ratio_mode s) gold bitcoin) dates) s,
     Ok ()).
Proof.
  revert s. induction dates as [|date dates IH]; intros s; simpl.
  - by rewrite add_points_nil.
  - rewrite bind_run, refresh_row_run, IH, add_points_app.
    by destruct (ratio_point (ratio_mode s) gold bitcoin date).
Qed.

Lemma fetch_view (w : World) (s : App) :
  same_view (cleared s)
    (get_bitcoin_prices_historical w
       (get_gold_prices_historical w (cleared s)).1).1.
Proof.
  destruct (gold_chain_run w (cleared s)) as (s1 & g & path & -> & Hv1 & _).
  simpl. destruct (bitcoin_run w s1) as (s2 & b & -> & Hv2 & _). simpl.
  by eapply same_view_trans.
Qed.

Lemma refresh_data_run (w : World) (s : App) :
  0 < days_to_show s → refresh_data w s = (refreshed w s, Ok ()).
Proof.
  intros Hdays. unfold refresh_data, refreshed, fetch_prices.
  pose proof (fetch_view w s) as Hview. revert Hview.
  unfold get_ratio_column_name. py_unfold. simpl.
  rewrite bool_decide_eq_false_2 by lia. fold (cleared s).
  destruct (gold_chain_run w (cleared s)) as (s1 & g & path & -> & _).
  simpl. destruct (bitcoin_run w s1) as (s2 & b & -> & _). simpl.
  intros (Hd & Hm & _).
  destruct (series_truthy g && series_truthy b); [|done].
  pose proof (for_each_refresh_row (default ∅ g) (default ∅ b)
    (slice_from (- days_to_show s2)
       (sorted_common_keys (default ∅ g) (default ∅ b))) s2) as Hloop.
  unfold mbind, py_bind in Hloop |- *. rewrite Hloop.
  unfold ratio_rows. simpl in Hd, Hm. by rewrite Hd, Hm.
Qed.

Lemma refreshed_rows (w : World) (s : App) :
  let rows :=
    if series_truthy (fetch_prices w s).1 && series_truthy (fetch_prices w s).2
    then ratio_rows (ratio_mode s) (days_to_show s)
           (default ∅ (fetch_prices w s).1) (default ∅ (fetch_prices w s).2)
    else [] in
  current_data (refreshed w s) = rows ∧ tree (refreshed w s) = rows.
Proof.
  unfold refreshed. destruct (fetch_view w s) as (_ & _ & Hc & Ht & _).
  destruct (fetch_prices w s) as [g b]. simpl.
  destruct (series_truthy g && series_truthy b); simpl;
    by rewrite Hc, Ht.
Qed.

(** C6: with a zero or negative day count [refresh_data] only shows the
    error dialog: no cache read, no request, the cache file, the table, the
    dataset, the statuses and the refresh label are as they were. *)
Theorem refresh_rejects_nonpositive_days (w : World) (s : App) :
  days_to_show s ≤ 0 →
  refresh_data w s =
    (add_dialog "Error" "Please enter a positive number of days" s, Ok ()) ∧
  io_trace (refresh_data w s).1 = io_trace s ∧
  cache_file (refresh_data w s).1 = cache_file s ∧
  current_data (refresh_data w s).1 = current_data s ∧
  tree (refresh_data w s).1 = tree s ∧
  api_status (refresh_data w s).1 = api_status s ∧
  status_labels (refresh_data w s).1 = status_labels s ∧
  refresh_label (refresh_data w s).1 = refresh_label s ∧
  log (refresh_data w s).1 = log s.
Proof.
  intros Hdays.
  assert (refresh_data w s =
    (add_dialog "Error" "Please enter a positive number of days" s, Ok ()))
    as ->; [|done].
  unfold refresh_data. py_unfold. simpl.
  by rewrite bool_decide_eq_true_2.
Qed.

(** ** The dates of a refresh *)

Lemma StronglySorted_strict {A : Type} (R : relation A) `{!AntiSymm (=) R}
    (l : list A) :
  StronglySorted R l → NoDup l → StronglySorted (strict R) l.
Proof.
  induction 1 as [|x l Hl IH Hx]; intros Hnd; [constructor|].
  apply NoDup_cons in Hnd as [Hnotin Hnd].
  constructor; [by apply IH|].
  rewrite Forall_forall in Hx |- *. intros y Hy.
  apply strict_spec_alt. split; [by apply Hx|]. by intros ->.
Qed.

Lemma sorted_common_keys_perm (a b : gmap string float) :
  sorted_common_keys a b ≡ₚ elements (dom a ∩ dom b).
Proof. apply merge_sort_Permutation. Qed.

Lemma elem_of_sorted_common_keys (a b : gmap string float) (d : string) :
  d ∈ sorted_common_keys a b ↔ d ∈ dom a ∧ d ∈ dom b.
Proof.
  rewrite sorted_common_keys_perm, elem_of_elements. apply elem_of_intersection.
Qed.

Lemma sorted_common_keys_sorted (a b : gmap string float) :
  StronglySorted (strict String.le) (sorted_common_keys a b).
Proof.
  apply StronglySorted_strict; [apply _| |].
  - apply StronglySorted_merge_sort; apply _.
  - rewrite sorted_common_keys_perm. apply NoDup_elements.
Qed.

Lemma sorted_common_keys_length (a b : gmap string float) :
  length (sorted_common_keys a b) = size (dom a ∩ dom b).
Proof. by rewrite sorted_common_keys_perm. Qed.

Lemma slice_from_last {A : Type} (limit : Z) (l : list A) :
  0 < limit →
  slice_from (- limit) l = drop (length l - Z.to_nat limit) l.
Proof.
  intros Hlimit. unfold slice_from.
  rewrite bool_decide_eq_true_2 by lia. f_equal. lia.
Qed.

Lemma selected_dates_latest (limit : Z) (gold bitcoin : gmap string float) :
  0 < limit →
  latest_common_dates (Z.to_nat limit) gold bitcoin
    (slice_from (- limit) (sorted_common_keys gold bitcoin)).
Proof.
  intros Hlimit. rewrite slice_from_last by done.
  set (l := sorted_common_keys gold bitcoin).
  set (k := (length l - Z.to_nat limit)%nat).
  pose proof (sorted_common_keys_sorted gold bitcoin) as Hsorted.
  fold l in Hsorted. rewrite <- (take_drop k l) in Hsorted.
  assert (Hsub : ∀ d, d ∈ drop k l → d ∈ l).
  { intros d Hd. rewrite <- (take_drop k l). apply elem_of_app. by right. }
  assert (Hin : ∀ d, d ∈ dom gold → d ∈ dom bitcoin →
            d ∈ take k l ∨ d ∈ drop k l).
  { intros d Hg Hb. apply elem_of_app. rewrite take_drop.
    by apply elem_of_sorted_common_keys. }
  split; [|split; [|split]].
  - by eapply StronglySorted_app_1_r.
  - intros d Hd. by apply elem_of_sorted_common_keys, Hsub.
  - rewrite length_drop. unfold k, l.
    rewrite sorted_common_keys_length. lia.
  - intros d d' Hg Hb Hout Hd'.
    destruct (Hin d Hg Hb) as [Hd|Hd]; [|done].
    by eapply StronglySorted_app_1_elem_of.
Qed.

Lemma ratio_point_date (mode : string) (gold bitcoin : gmap string float)
    (date : string) (p : RatioPoint) :
  ratio_point mode gold bitcoin date = Some p →
  row_date p = date ∧ gold !! date = Some (row_gold p) ∧
  bitcoin !! date = Some (row_bitcoin p) ∧
  float_truthy (row_gold p) = true ∧ float_truthy (row_bitcoin p) = true ∧
  row_ratio p = if bool_decide (mode = "btc_gold")
                then PrimFloat.div (row_bitcoin p) (row_gold p)
                else PrimFloat.div (row_gold p) (row_bitcoin p).
Proof.
  unfold ratio_point.
  destruct (gold !! date) as [g|], (bitcoin !! date) as [b|]; try done.
  destruct (float_truthy g) eqn:Hg, (float_truthy b) eqn:Hb; try done.
  by intros [= <-].
Qed.

Lemma ratio_point_is_Some (mode : string) (gold bitcoin : gmap string float)
    (date : string) :
  is_Some (ratio_point mode gold bitcoin date) ↔ has_row gold bitcoin date.
Proof.
  unfold ratio_point, has_row, price_truthy.
  destruct (gold !! date) as [g|], (bitcoin !! date) as [b|]; simpl;
    try destruct (float_truthy g); try destruct (float_truthy b); simpl;
    split; (done || by intros [] || by eexists).
Qed.

Lemma ratio_rows_dates (mode : string) (gold bitcoin : gmap string float)
    (dates : list string) :
  row_date <$> omap (ratio_point mode gold bitcoin) dates =
  filter (λ d, has_row gold bitcoin d) dates.
Proof.
  induction dates as [|d dates IH]; [done|]. simpl.
  rewrite filter_cons.
  destruct (ratio_point mode gold bitcoin d) as [p|] eqn:Hp.
  - rewrite decide_True by (apply (ratio_point_is_Some mode); by eexists).
    simpl. f_equal; [|done]. by apply ratio_point_date in Hp as [-> _].
  - rewrite decide_False; [done|].
    intros [p' Hp']%(ratio_point_is_Some mode). congruence.
Qed.

Lemma filter_all {A : Type} (P : A → Prop) `{!∀ x, Decision (P x)}
    (l : list A) :
  Forall P l → filter P l = l.
Proof.
  induction 1 as [|x l Hx _ IH]; [done|].
  by rewrite filter_cons_True, IH.
Qed.

Lemma refresh_data_rows (w : World) (s : App) :
  0 < days_to_show s →
  (refresh_data w s).2 = Ok () ∧
  current_data (refresh_data w s).1 =
    (if series_truthy (fetch_prices w s).1 && series_truthy (fetch_prices w s).2
     then ratio_rows (ratio_mode s) (days_to_show s)
            (default ∅ (fetch_prices w s).1) (default ∅ (fetch_prices w s).2)
     else []) ∧
  tree (refresh_data w s).1 = current_data (refresh_data w s).1.
Proof.
  intros Hdays. rewrite refresh_data_run by done. simpl.
  destruct (refreshed_rows w s) as [-> ->]. done.
Qed.

Lemma series_truthy_false (prices : gmap string float) :
  series_truthy (Some prices) = false ↔ prices = ∅.
Proof.
  unfold series_truthy. rewrite negb_false_iff, Nat.eqb_eq.
  apply map_size_empty_iff.
Qed.

Lemma refresh_data_total (w : World) (s : App) : (refresh_data w s).2 = Ok ().
Proof.
  destruct (decide (0 < days_to_show s)) as [Hdays|Hdays].
  - by apply refresh_data_rows.
  - unfold refresh_data. py_unfold. simpl.
    by rewrite bool_decide_eq_true_2 by lia.
Qed.

(** C7: [cache_prices] replaces whatever the cache file held by the record
    of the current time and the given series; when the write fails the
    exception is logged and not raised, the gold chain still returns the
    primary source's series with a success status, and the refresh that
    triggered the write runs to its end. *)
Theorem cache_prices_best_effort (w : World) (prices : gmap string float)
    (s : App) :
  (cache_prices w prices s).2 = Ok () ∧
  (refresh_data w s).2 = Ok () ∧
  (cache_write w = WriteOk →
   cache_file (cache_prices w prices s).1 =
     Document (JObject {| member_timestamp := Some (TsNumber (now_store w));
                          member_prices := Some prices |}) ∧
   log (cache_prices w prices s).1 = log s) ∧
  (cache_write w ≠ WriteOk →
   ∃ e, log (cache_prices w prices s).1 = log s ++ [LogCacheError e]) ∧
  (cache_misses w s →
   ∀ data,
     nbp_get w (days_to_show s) = Reply 200 (Ok data) →
     nbp_prices data ∅ = Ok prices →
     ∃ s', get_gold_prices_historical w s = (s', Ok (Some prices)) ∧
           api_status s' !! "NBP" = Some true ∧
           io_trace s' =
             io_trace s ++ [CacheRead; NbpRequest (days_to_show s); CacheWrite]).
Proof.
  split; [|split; [|split; [|split]]].
  - by destruct (cache_prices_run w prices s) as (s' & -> & _).
  - apply refresh_data_total.
  - intros Hw. unfold cache_prices, json_dump. py_unfold. simpl.
    by rewrite Hw.
  - intros Hw. unfold cache_prices, json_dump. py_unfold. simpl.
    destruct (cache_write w); [done|..]; simpl; eauto.
  - intros (r & Hr & Hmiss) data Hreply Hparse.
    destruct (load_cached_prices_run w s) as [r' Hload].
    rewrite Hload in Hr. simpl in Hr. injection Hr as ->.
    unfold get_gold_prices_historical.
    unfold try_except at 1. rewrite bind_run, Hload, Hmiss.
    py_unfold. simpl. rewrite Hreply. simpl. rewrite Hparse.
    destruct (cache_prices_run w prices (add_io (NbpRequest (days_to_show s))
                (add_io CacheRead s))) as (s1 & Hrun & _ & Hst & Hio).
    rewrite Hrun. simpl.
    eexists; split; [reflexivity|]. simpl. split.
    + apply lookup_insert_eq.
    + rewrite Hio. simpl. by rewrite <- !app_assoc.
Qed.

Lemma refresh_data_points (w : World) (s : App) (p : RatioPoint) :
  0 < days_to_show s →
  p ∈ current_data (refresh_data w s).1 →
  ∃ gold bitcoin,
    fetch_prices w s = (Some gold, Some bitcoin) ∧
    ratio_point (ratio_mode s) gold bitcoin (row_date p) = Some p.
Proof.
  intros Hdays. destruct (refresh_data_rows w s Hdays) as (_ & -> & _).
  destruct (fetch_prices w s) as [[gold|] [bitcoin|]]; simpl;
    rewrite ?andb_false_r; try by intros ?%elem_of_nil.
  destruct (_ && _); [|by intros ?%elem_of_nil].
  unfold ratio_rows. intros (d & _ & Hp)%list_elem_of_omap.
  exists gold, bitcoin. split; [done|].
  by destruct (ratio_point_date _ _ _ _ _ Hp) as [-> _].
Qed.

(** C4, as amended: the dates a refresh selects are the common dates of
    the two series in ascending order, cut down to the [days_to_show]
    latest; the rows carry, in that order, those of the selected dates at
    which both prices are non-zero, and no other date takes the place of a
    dropped one; for series without a zero price the rows carry exactly the
    selected dates. *)
Theorem refresh_dates_latest_common (w : World) (s : App)
    (gold bitcoin : gmap string float) :
  0 < days_to_show s →
  fetch_prices w s = (Some gold, Some bitcoin) →
  let dates := slice_from (- days_to_show s) (sorted_common_keys gold bitcoin) in
  latest_common_dates (Z.to_nat (days_to_show s)) gold bitcoin dates ∧
  row_date <$> current_data (refresh_data w s).1 =
    filter (λ d, has_row gold bitcoin d) dates ∧
  (map_Forall (λ _ g, float_truthy g = true) gold →
   map_Forall (λ _ b, float_truthy b = true) bitcoin →
   row_date <$> current_data (refresh_data w s).1 = dates).
Proof.
  intros Hdays Hfetch dates.
  pose proof (selected_dates_latest _ gold bitcoin Hdays) as Hspec.
  fold dates in Hspec. split; [done|].
  assert (Hrows : row_date <$> current_data (refresh_data w s).1 =
                  filter (λ d, has_row gold bitcoin d) dates).
  { destruct (refresh_data_rows w s Hdays) as (_ & -> & _).
    rewrite Hfetch. simpl.
    destruct (series_truthy (Some gold) && series_truthy (Some bitcoin))
      eqn:Htruthy.
    - apply ratio_rows_dates.
    - destruct Hspec as (_ & Hcommon & _).
      destruct dates as [|d ?]; [done|]. exfalso.
      destruct (Hcommon d) as [Hg Hb]; [left|].
      apply elem_of_dom in Hg as [g Hg], Hb as [b Hb].
      apply andb_false_iff in Htruthy as [->%series_truthy_false
                                         | ->%series_truthy_false];
        by rewrite lookup_empty in *. }
  split; [done|]. intros Hgold Hbitcoin. rewrite Hrows.
  destruct Hspec as (_ & Hcommon & _).
  apply filter_all. apply Forall_forall.
  intros d [[g Hg]%elem_of_dom [b Hb]%elem_of_dom]%Hcommon.
  unfold has_row. rewrite Hg, Hb. simpl.
  rewrite (Hgold _ _ Hg), (Hbitcoin _ _ Hb). done.
Qed.

(** C5: on the prices of a row [calculate_ratio] returns bitcoin over gold
    in mode [btc_gold] and gold over bitcoin otherwise, and that is the ratio
    stored in every row of a refresh; gold 2000 with bitcoin 40000 gives 20.0
    and 0.05. *)
Theorem ratio_orientation (w : World) (s : App) (p : RatioPoint) :
  0 < days_to_show s →
  p ∈ current_data (refresh_data w s).1 →
  calculate_ratio (row_gold p) (row_bitcoin p) s = (s, Ok (row_ratio p)) ∧
  row_ratio p = (if bool_decide (ratio_mode s = "btc_gold")
                 then PrimFloat.div (row_bitcoin p) (row_gold p)
                 else PrimFloat.div (row_gold p) (row_bitcoin p)) ∧
  (∃ gold bitcoin, fetch_prices w s = (Some gold, Some bitcoin) ∧
     gold !! row_date p = Some (row_gold p) ∧
     bitcoin !! row_date p = Some (row_bitcoin p)) ∧
  (ratio_mode s = "btc_gold" →
   calculate_ratio 2000 40000 s = (s, Ok 20%float)) ∧
  (ratio_mode s = "gold_btc" →
   calculate_ratio 2000 40000 s = (s, Ok 0.05%float)).
Proof.
  intros Hdays Hp.
  destruct (refresh_data_points w s p Hdays Hp) as (gold & bitcoin & Hf & Hpt).
  destruct (ratio_point_date _ _ _ _ _ Hpt) as (_ & Hg & Hb & Htg & Htb & Hr).
  split; [by rewrite calculate_ratio_run, Hr|].
  split; [done|]. split; [by eauto|].
  split; intros Hmode; rewrite calculate_ratio_run by done; rewrite Hmode; done.
Qed.

(** C8: the rows of a refresh are a function of the two fetched series, the
    mode and the day count alone: two refreshes that agree on these, from any
    two states and worlds, leave the same dataset and the same table. *)
Theorem refresh_rows_deterministic (w1 w2 : World) (s1 s2 : App) :
  0 < days_to_show s1 →
  days_to_show s2 = days_to_show s1 →
  ratio_mode s2 = ratio_mode s1 →
  fetch_prices w2 s2 = fetch_prices w1 s1 →
  current_data (refresh_data w2 s2).1 = current_data (refresh_data w1 s1).1 ∧
  tree (refresh_data w2 s2).1 = tree (refresh_data w1 s1).1 ∧
  (refresh_data w2 s2).2 = (refresh_data w1 s1).2 ∧
  ∀ gold bitcoin,
    fetch_prices w1 s1 = (Some gold, Some bitcoin) →
    gold ≠ ∅ → bitcoin ≠ ∅ →
    current_data (refresh_data w1 s1).1 =
      ratio_rows (ratio_mode s1) (days_to_show s1) gold bitcoin.
Proof.
  intros Hdays Hd Hm Hf.
  assert (Hdays2 : 0 < days_to_show s2) by by rewrite Hd.
  destruct (refresh_data_rows w1 s1 Hdays) as (Hok1 & Hrows1 & Htree1).
  destruct (refresh_data_rows w2 s2 Hdays2) as (Hok2 & Hrows2 & Htree2).
  rewrite Htree1, Htree2, Hok1, Hok2, Hrows1, Hrows2, Hf, Hd, Hm.
  repeat (split; [done|]).
  intros gold bitcoin -> Hg Hb. simpl.
  destruct (series_truthy (Some gold)) eqn:Htg;
    [|by apply series_truthy_false in Htg].
  destruct (series_truthy (Some bitcoin)) eqn:Htb;
    [|by apply series_truthy_false in Htb].
  done.
Qed.

Lemma absent_or_empty_falsy (o : option (gmap string float)) :
  absent_or_empty o ↔ series_truthy o = false.
Proof.
  unfold absent_or_empty. destruct o as [prices|].
  - rewrite series_truthy_false. split; [by intros [[=]|[= ->]]|].
    intros ->. by right.
  - split; [done|]. by left.
Qed.

(** C9: a leg that returns an empty series is handled as a leg that
    returned nothing: the refresh shows "Failed to fetch price data" and
    leaves the dataset and the table empty, even though the adapter that
    delivered the empty series reported success. *)
Theorem empty_series_counts_as_failure (w : World) (s : App) :
  0 < days_to_show s →
  absent_or_empty (fetch_prices w s).1 ∨ absent_or_empty (fetch_prices w s).2 →
  (refresh_data w s).2 = Ok () ∧
  current_data (refresh_data w s).1 = [] ∧
  tree (refresh_data w s).1 = [] ∧
  refresh_label (refresh_data w s).1 = LabelFetchError ∧
  dialogs (refresh_data w s).1 =
    dialogs s ++ [("Error", "Failed to fetch price data")] ∧
  (yf_history w (days_to_show s) = Ok [] →
   ∃ s', get_gold_prices_yfinance w s = (s', Ok (Some ∅)) ∧
         api_status s' !! "YFinance" = Some true).
Proof.
  intros Hdays Hempty.
  assert (Hfalsy : series_truthy (fetch_prices w s).1 &&
                   series_truthy (fetch_prices w s).2 = false).
  { apply andb_false_iff.
    destruct Hempty as [H|H]; apply absent_or_empty_falsy in H; auto. }
  destruct (refresh_data_rows w s Hdays) as (Hok & Hrows & Htree).
  rewrite Htree, Hrows, Hfalsy. repeat (split; [done|]).
  rewrite refresh_data_run by done. unfold refreshed.
  destruct (fetch_view w s) as (_ & _ & _ & _ & _ & _ & Hdialogs).
  destruct (fetch_prices w s) as [g b]. simpl in Hfalsy. rewrite Hfalsy.
  simpl. rewrite Hdialogs. repeat (split; [done|]).
  intros Hyf. destruct (yfinance_run w s) as (s' & Hrun & _ & Hst & _).
  unfold yfinance_result in Hrun, Hst. rewrite Hyf in Hrun, Hst.
  exists s'. split; [done|]. rewrite Hst. apply lookup_insert_eq.
Qed.

(** C10: a selected date at which the gold price or the bitcoin price
    compares equal to [0.0] gets no row; every row has two non-zero prices,
    and [refresh_data] never raises, so no division by zero is attempted. *)
Theorem refresh_skips_zero_prices (w : World) (s : App) :
  (refresh_data w s).2 = Ok () ∧
  (0 < days_to_show s →
   ∀ p, p ∈ current_data (refresh_data w s).1 →
        PrimFloat.eqb (row_gold p) 0 = false ∧
        PrimFloat.eqb (row_bitcoin p) 0 = false ∧
        truediv (row_bitcoin p) (row_gold p) ≠ Raise ZeroDivisionError ∧
        truediv (row_gold p) (row_bitcoin p) ≠ Raise ZeroDivisionError) ∧
  (0 < days_to_show s →
   ∀ gold bitcoin date g b,
     fetch_prices w s = (Some gold, Some bitcoin) →
     gold !! date = Some g → bitcoin !! date = Some b →
     PrimFloat.eqb g 0 = true ∨ PrimFloat.eqb b 0 = true →
     date ∉ (row_date <$> current_data (refresh_data w s).1)).
Proof.
  split; [apply refresh_data_total|]. split.
  - intros Hdays p Hp.
    destruct (refresh_data_points w s p Hdays Hp) as (gold & bitcoin & _ & Hpt).
    destruct (ratio_point_date _ _ _ _ _ Hpt) as (_ & _ & _ & Hg & Hb & _).
    apply float_truthy_eqb in Hg, Hb. unfold truediv. by rewrite Hg, Hb.
  - intros Hdays gold bitcoin date g b Hfetch Hg Hb Hzero.
    intros (p & -> & Hp)%list_elem_of_fmap.
    destruct (refresh_data_points w s p Hdays Hp) as (gold' & bitcoin' & Hf & Hpt).
    rewrite Hfetch in Hf. injection Hf as <- <-.
    destruct (ratio_point_date _ _ _ _ _ Hpt) as (_ & Hg' & Hb' & Htg & Htb & _).
    assert (row_gold p = g) as Heg by congruence.
    assert (row_bitcoin p = b) as Heb by congruence.
    apply float_truthy_eqb in Htg, Htb. rewrite Heg in Htg. rewrite Heb in Htb.
    destruct Hzero; congruence.
Qed.

(** ** The concrete session *)

(** The TTL boundary: a record one second younger than an hour is served,
    a record of exactly one hour or one second more is not. *)
Example load_cached_prices_ttl_boundary :
  (load_cached_prices demo_world
     (initial_app (cached_gold (timedelta_hours 1 - timedelta_seconds 1)))).2 =
    Ok (Some gold_2000) ∧
  (load_cached_prices demo_world
     (initial_app (cached_gold (timedelta_hours 1)))).2 = Ok None ∧
  (load_cached_prices demo_world
     (initial_app (cached_gold (timedelta_hours 1 + timedelta_seconds 1)))).2 =
    Ok None ∧
  (load_cached_prices demo_world (initial_app NoFile)).2 = Ok None ∧
  (load_cached_prices demo_world (initial_app NotJson)).2 = Ok None.
Proof. repeat split; vm_compute; reflexivity. Qed.

Lemma gold_chain_fallback_witness :
  ∃ s', get_gold_prices_historical nbp_down_world (initial_app NoFile) =
          (s', Ok (Some (yfinance_prices [("2024-01-02", 185.5%float);
                                          ("2024-01-03", 186.25%float)] ∅))) ∧
        api_status s' !! "NBP" = Some false ∧
        api_status s' !! "YFinance" = Some true ∧
        io_trace s' = [CacheRead; NbpRequest 7; YFinanceRequest 7] ∧
        ∀ s0, days_to_show s0 = 7 →
              (get_gold_prices_yfinance nbp_down_world s0).2 =
              (get_gold_prices_historical nbp_down_world (initial_app NoFile)).2.
Proof.
  apply (gold_chain_fallback nbp_down_world (initial_app NoFile)).
  - exists None. split; vm_compute; reflexivity.
  - left. vm_compute. discriminate.
  - reflexivity.
Defined.

Lemma cache_prices_best_effort_witness :
  (cache_prices disk_full_world gold_2000 (initial_app NoFile)).2 = Ok () ∧
  (refresh_data disk_full_world (initial_app NoFile)).2 = Ok () ∧
  (∃ e, log (cache_prices disk_full_world gold_2000 (initial_app NoFile)).1 =
          [LogCacheError e]) ∧
  cache_file (cache_prices demo_world gold_2000
                (initial_app (cached_gold 0))).1 =
    Document (JObject {| member_timestamp := Some (TsNumber noon_jan5);
                         member_prices := Some gold_2000 |}) ∧
  (∃ s', get_gold_prices_historical disk_full_world (initial_app NoFile) =
           (s', Ok (Some nbp_three_days)) ∧
         api_status s' !! "NBP" = Some true ∧
         io_trace s' = [CacheRead; NbpRequest 7; CacheWrite]) ∧
  cache_file (get_gold_prices_historical disk_full_world
                (initial_app NoFile)).1 = NotJson.
Proof.
  split; [|split; [|split; [|split; [|split]]]].
  - apply (cache_prices_best_effort disk_full_world gold_2000
             (initial_app NoFile)).
  - apply (cache_prices_best_effort disk_full_world gold_2000
             (initial_app NoFile)).
  - apply (cache_prices_best_effort disk_full_world gold_2000
             (initial_app NoFile)).
    vm_compute. discriminate.
  - apply (cache_prices_best_effort demo_world gold_2000
             (initial_app (cached_gold 0))).
    reflexivity.
  - eapply (cache_prices_best_effort disk_full_world nbp_three_days
              (initial_app NoFile)).
    + exists None. split; vm_compute; reflexivity.
    + reflexivity.
    + vm_compute. reflexivity.
  - vm_compute. reflexivity.
Defined.

Lemma bitcoin_first_observation_wins_witness :
  ∃ s' prices,
    get_bitcoin_prices_historical demo_world (initial_app NoFile) =
      (s', Ok (Some prices)) ∧
    prices !! "2024-01-02" = Some 42000%float ∧
    api_status s' !! "CoinGecko" = Some true.
Proof.
  apply (bitcoin_first_observation_wins demo_world (initial_app NoFile)
           [] [(jan1_ms + day_ms + 3600000, 42100%float);
               (jan1_ms + 2 * day_ms, 43000%float);
               (jan1_ms + 3 * day_ms, 44000%float)] (jan1_ms + day_ms)).
  - reflexivity.
  - intros x Hx. simpl in Hx.
    repeat (apply elem_of_cons in Hx as [->|Hx]; [by eexists|]).
    by apply elem_of_nil in Hx.
  - reflexivity.
  - by intros x Hx%elem_of_nil.
Defined.

Lemma refresh_rejects_nonpositive_days_witness :
  refresh_data demo_world (set_days_to_show 0 (initial_app NoFile)) =
    (add_dialog "Error" "Please enter a positive number of days"
       (set_days_to_show 0 (initial_app NoFile)), Ok ()) ∧
  io_trace (refresh_data demo_world
              (set_days_to_show (-3) (initial_app NoFile))).1 = [].
Proof.
  split.
  - apply (refresh_rejects_nonpositive_days demo_world
             (set_days_to_show 0 (initial_app NoFile))). simpl. lia.
  - apply (refresh_rejects_nonpositive_days demo_world
             (set_days_to_show (-3) (initial_app NoFile))). simpl. lia.
Defined.

Lemma refresh_dates_latest_common_witness :
  row_date <$> current_data
                 (refresh_data demo_world (initial_app NoFile)).1 =
    ["2024-01-02"; "2024-01-03"] ∧
  row_date <$> current_data
                 (refresh_data demo_world
                    (set_days_to_show 1 (initial_app NoFile))).1 =
    ["2024-01-03"].
Proof.
  split.
  - pose proof (refresh_dates_latest_common demo_world (initial_app NoFile)
      (default ∅ (fetch_prices demo_world (initial_app NoFile)).1)
      (default ∅ (fetch_prices demo_world (initial_app NoFile)).2))
      as (_ & _ & Hrows); [simpl; lia|vm_compute; reflexivity|].
    rewrite Hrows; [vm_compute; reflexivity|..];
      apply (bool_decide_unpack _); vm_compute; exact I.
  - pose proof (refresh_dates_latest_common demo_world
      (set_days_to_show 1 (initial_app NoFile))
      (default ∅ (fetch_prices demo_world (initial_app NoFile)).1)
      (default ∅ (fetch_prices demo_world (initial_app NoFile)).2))
      as (_ & _ & Hrows); [simpl; lia|vm_compute; reflexivity|].
    rewrite Hrows; [vm_compute; reflexivity|..];
      apply (bool_decide_unpack _); vm_compute; exact I.
Defined.

(** Ten common dates and a limit of three: the three latest, ascending. *)
Example ten_dates_limit_three :
  let dates := ["2024-01-05"; "2024-01-10"; "2024-01-01"; "2024-01-07";
                "2024-01-03"; "2024-01-09"; "2024-01-02"; "2024-01-08";
                "2024-01-04"; "2024-01-06"] in
  let gold : gmap string float := list_to_map ((λ d, (d, 2000%float)) <$> dates) in
  let bitcoin : gmap string float :=
    list_to_map ((λ d, (d, 40000%float)) <$> reverse dates) in
  slice_from (-3) (sorted_common_keys gold bitcoin) =
    ["2024-01-08"; "2024-01-09"; "2024-01-10"] ∧
  row_date <$> ratio_rows "btc_gold" 3 gold bitcoin =
    ["2024-01-08"; "2024-01-09"; "2024-01-10"].
Proof. split; vm_compute; reflexivity. Qed.

Lemma ratio_orientation_witness :
  let btc_gold_app := initial_app (cached_gold 0) in
  let gold_btc_app := set_ratio_mode "gold_btc" (initial_app (cached_gold 0)) in
  let row (ratio : float) :=
    {| row_date := "2024-01-01"; row_gold := 2000; row_bitcoin := 40000;
       row_ratio := ratio |} in
  current_data (refresh_data one_day_world btc_gold_app).1 = [row 20%float] ∧
  current_data (refresh_data one_day_world gold_btc_app).1 = [row 0.05%float] ∧
  calculate_ratio 2000 40000 btc_gold_app = (btc_gold_app, Ok 20%float) ∧
  calculate_ratio 2000 40000 gold_btc_app = (gold_btc_app, Ok 0.05%float).
Proof.
  intros btc_gold_app gold_btc_app row.
  assert (Hbtc : current_data (refresh_data one_day_world btc_gold_app).1 =
                 [row 20%float]) by (vm_compute; reflexivity).
  assert (Hgold : current_data (refresh_data one_day_world gold_btc_app).1 =
                  [row 0.05%float]) by (vm_compute; reflexivity).
  split; [done|]. split; [done|]. split.
  - destruct (ratio_orientation one_day_world btc_gold_app (row 20%float))
      as (Hcall & _); [simpl; lia|rewrite Hbtc; left|exact Hcall].
  - destruct (ratio_orientation one_day_world gold_btc_app (row 0.05%float))
      as (Hcall & _); [simpl; lia|rewrite Hgold; left|exact Hcall].
Defined.

Lemma refresh_rows_deterministic_witness :
  let first := (refresh_data demo_world (initial_app NoFile)).1 in
  let second := (refresh_data demo_world first).1 in
  io_trace second =
    [CacheRead; NbpRequest 7; CacheWrite; CoinGeckoRequest 7;
     CacheRead; CoinGeckoRequest 7] ∧
  current_data second = current_data first ∧
  tree second = tree first ∧
  length (current_data second) = 2%nat.
Proof.
  intros first second.
  split; [vm_compute; reflexivity|].
  destruct (refresh_rows_deterministic demo_world demo_world
              (initial_app NoFile) first) as (Hdata & Htree & _).
  - simpl. lia.
  - vm_compute. reflexivity.
  - vm_compute. reflexivity.
  - vm_compute. reflexivity.
  - split; [exact Hdata|]. split; [exact Htree|]. vm_compute. reflexivity.
Defined.

Lemma empty_series_counts_as_failure_witness :
  (fetch_prices no_gold_world (initial_app NoFile)).1 = Some ∅ ∧
  (api_status (refresh_data no_gold_world (initial_app NoFile)).1)
    !! "YFinance" = Some true ∧
  current_data (refresh_data no_gold_world (initial_app NoFile)).1 = [] ∧
  tree (refresh_data no_gold_world (initial_app NoFile)).1 = [] ∧
  refresh_label (refresh_data no_gold_world (initial_app NoFile)).1 =
    LabelFetchError ∧
  dialogs (refresh_data no_gold_world (initial_app NoFile)).1 =
    [("Error", "Failed to fetch price data")].
Proof.
  split; [vm_compute; reflexivity|]. split; [vm_compute; reflexivity|].
  destruct (empty_series_counts_as_failure no_gold_world (initial_app NoFile))
    as (_ & Hdata & Htree & Hlabel & Hdialogs & _).
  - simpl. lia.
  - left. right. vm_compute. reflexivity.
  - done.
Defined.

Lemma refresh_skips_zero_prices_witness :
  (fetch_prices zero_close_world (initial_app NoFile)).1 =
    Some {["2024-01-02" := 0%float; "2024-01-03" := 1862.5%float]} ∧
  ("2024-01-02" ∉
     row_date <$>
       current_data (refresh_data zero_close_world (initial_app NoFile)).1) ∧
  row_date <$>
    current_data (refresh_data zero_close_world (initial_app NoFile)).1 =
    ["2024-01-03"] ∧
  (refresh_data zero_close_world (initial_app NoFile)).2 = Ok ().
Proof.
  split; [vm_compute; reflexivity|].
  destruct (refresh_skips_zero_prices zero_close_world (initial_app NoFile))
    as (Hok & _ & Hskip).
  split; [|split; [vm_compute; reflexivity|exact Hok]].
  apply (Hskip ltac:(simpl; lia)
           (default ∅ (fetch_prices zero_close_world (initial_app NoFile)).1)
           (default ∅ (fetch_prices zero_close_world (initial_app NoFile)).2)
           "2024-01-02" 0%float 42000%float).
  - vm_compute. reflexivity.
  - vm_compute. reflexivity.
  - vm_compute. reflexivity.
  - left. reflexivity.
Defined.

(** * Further properties of the cache and the adapters *)

(** ** Writing the cache, then reading it *)

Lemma load_cached_prices_value (w : World) (s : App) :
  load_cached_prices w s =
    (add_io CacheRead s,
     Ok (match cache_file s with
         | Document (JObject {| member_timestamp := Some (TsNumber t);
                                member_prices := Some prices |}) =>
             if bool_decide (now_load w - t < timedelta_hours 1)
             then Some prices else None
         | _ => None
         end)).
Proof.
  unfold load_cached_prices. py_unfold. simpl.
  destruct (cache_file s) as [| |[[[[t| |]|] [prices|]]|]]; simpl;
    try case_bool_decide; reflexivity.
Qed.

Lemma cache_prices_file (w : World) (prices : gmap string float) (s : App) :
  cache_file (cache_prices w prices s).1 =
    match cache_write w with
    | WriteOk =>
        Document (JObject {| member_timestamp := Some (TsNumber (now_store w));
                             member_prices := Some prices |})
    | OpenFails => cache_file s
    | DumpFails => NotJson
    end.
Proof.
  unfold cache_prices, json_dump. py_unfold. simpl.
  by destruct (cache_write w).
Qed.

(** X1: a series stored by [cache_prices] is what a later
    [load_cached_prices] returns as long as the clock has advanced by less
    than an hour since the write, and [None] from then on. *)
Theorem cache_round_trip (w1 w2 : World) (prices : gmap string float)
    (s : App) :
  cache_write w1 = WriteOk →
  (load_cached_prices w2 (cache_prices w1 prices s).1).2 =
    Ok (if bool_decide (now_load w2 - now_store w1 < timedelta_hours 1)
        then Some prices else None).
Proof.
  intros Hw. rewrite load_cached_prices_value, cache_prices_file, Hw. done.
Qed.

(** X2: a write that fails after the file was opened leaves a file that the
    next read rejects, so the record that was there is lost; a write that
    cannot open the file leaves the next read as it would have been. *)
Theorem failed_write_effect (w1 w2 : World) (prices : gmap string float)
    (s : App) :
  (cache_write w1 = DumpFails →
   (load_cached_prices w2 (cache_prices w1 prices s).1).2 = Ok None) ∧
  (cache_write w1 = OpenFails →
   (load_cached_prices w2 (cache_prices w1 prices s).1).2 =
   (load_cached_prices w2 s).2).
Proof.
  split; intros Hw;
    rewrite !load_cached_prices_value, cache_prices_file, Hw; done.
Qed.

(** ** The paths of the gold chain *)

Lemma gold_chain_cases (w : World) (s : App) :
  ∃ r, load_cached_prices w s = (add_io CacheRead s, Ok r) ∧
  if series_truthy r then
    get_gold_prices_historical w s =
      (set_status "NBP" true UsingCachedData (add_io CacheRead s), Ok r)
  else
    let s1 := add_io (NbpRequest (days_to_show s)) (add_io CacheRead s) in
    (∃ data prices,
       nbp_get w (days_to_show s) = Reply 200 (Ok data) ∧
       nbp_prices data ∅ = Ok prices ∧
       get_gold_prices_historical w s =
         (set_status "NBP" true NoDetail (cache_prices w prices s1).1,
          Ok (Some prices))) ∨
    (primary_fails w (days_to_show s) ∧
     ∃ s2, same_view s s2 ∧
           api_status s2 = <["NBP" := false]> (api_status s) ∧
           cache_file s2 = cache_file s ∧ io_trace s2 = io_trace s1 ∧
           get_gold_prices_historical w s = get_gold_prices_yfinance w s2).
Proof.
  destruct (load_cached_prices_run w s) as [r Hload].
  exists r. split; [done|].
  remember (get_gold_prices_historical w s) as run eqn:Hrun.
  unfold get_gold_prices_historical in Hrun.
  unfold try_except at 1 in Hrun. rewrite bind_run, Hload in Hrun.
  destruct (series_truthy r) eqn:Hr; [by py_unfold|].
  py_unfold. simpl in Hrun. unfold primary_fails.
  assert (Hpass : ∀ s2,
            (let (s', r0) := get_gold_prices_yfinance w s2 in
             match r0 with
             | Ok a => (s', Ok a)
             | Raise e =>
                 get_gold_prices_yfinance w
                   (set_status "NBP" false (ExnDetail e)
                      (add_log (LogNbpError e) s'))
             end) = get_gold_prices_yfinance w s2).
  { intros s2. by destruct (yfinance_run w s2) as (s' & -> & _). }
  destruct (nbp_get w (days_to_show s)) as [e|code [data|e]]; simpl in Hrun.
  - right. split; [done|]. eexists. split; [|split; [|split; [|split]]];
      [| | | |exact Hrun]; by repeat split.
  - case_bool_decide as Hcode; simpl in Hrun.
    + destruct (nbp_prices data ∅) as [prices|e] eqn:Hparse; simpl in Hrun.
      * left. exists data, prices. subst code. split; [done|]. split; [done|].
        destruct (cache_prices_run w prices
                    (add_io (NbpRequest (days_to_show s)) (add_io CacheRead s)))
          as (s1 & Hc & _).
        rewrite Hc in Hrun |- *. exact Hrun.
      * right. split; [right; by exists e|].
        eexists. split; [|split; [|split; [|split]]];
          [| | | |exact Hrun]; by repeat split.
    + right. split; [by left|]. rewrite Hpass in Hrun.
      eexists. split; [|split; [|split; [|split]]];
        [| | | |exact Hrun]; by repeat split.
  - case_bool_decide as Hcode; simpl in Hrun.
    + right. split; [right; by exists e|].
      eexists. split; [|split; [|split; [|split]]];
        [| | | |exact Hrun]; by repeat split.
    + right. split; [by left|]. rewrite Hpass in Hrun.
      eexists. split; [|split; [|split; [|split]]];
        [| | | |exact Hrun]; by repeat split.
Qed.

Lemma load_cached_prices_fresh (w : World) (s : App)
    (r : option (gmap string float)) :
  load_cached_prices w s = (add_io CacheRead s, Ok r) →
  ∀ prices, r = Some prices ↔ fresh_record (now_load w) (cache_file s) prices.
Proof.
  rewrite load_cached_prices_value. intros [= <-] prices.
  destruct (cache_file s) as [| |[[[[t| |]|] [p|]]|]];
    try (split; [discriminate|inversion 1]).
  case_bool_decide as Hage; split.
  - intros [= <-]. by constructor.
  - by inversion 1.
  - discriminate.
  - inversion 1; subst. lia.
Qed.

(** X3: when the cache file holds a fresh record with at least one date,
    the gold chain returns that record's series without any request and
    without touching the file, and marks NBP as succeeded although NBP was
    not contacted; the message "Using cached data" passed along is not
    shown, so the label and the log line are those of a success of NBP
    itself. *)
Theorem cache_hit_skips_network (w : World) (s : App)
    (prices : gmap string float) :
  fresh_record (now_load w) (cache_file s) prices →
  prices ≠ ∅ →
  ∃ s', get_gold_prices_historical w s = (s', Ok (Some prices)) ∧
        io_trace s' = io_trace s ++ [CacheRead] ∧
        api_status s' !! "NBP" = Some true ∧
        status_labels s' !! "NBP" = Some (true, NoDetail) ∧
        last (log s') = Some (LogStatus "NBP" true NoDetail) ∧
        s' = set_status "NBP" true NoDetail (add_io CacheRead s) ∧
        api_status s' !! "YFinance" = api_status s !! "YFinance" ∧
        cache_file s' = cache_file s.
Proof.
  intros Hfresh Hne.
  destruct (gold_chain_cases w s) as (r & Hload & Hcases).
  apply (load_cached_prices_fresh w s r Hload) in Hfresh. subst r.
  destruct (series_truthy (Some prices)) eqn:Ht;
    [|by apply series_truthy_false in Ht].
  eexists. split; [exact Hcases|]. simpl.
  rewrite !lookup_insert_eq, lookup_insert_ne, last_snoc by done.
  by repeat split.
Qed.

(** X4: on a cache file whose ['prices'] member, if there is one, is an
    object of dates and numbers: unless the file holds a fresh record with
    at least one date, that is when it is absent, unreadable, not an object,
    without a usable timestamp, without prices, an hour old or more, or
    holding no date, the chain goes on to ask NBP right after the read. *)
Theorem cache_miss_asks_primary (w : World) (s : App) :
  ¬ (∃ prices, fresh_record (now_load w) (cache_file s) prices ∧ prices ≠ ∅) →
  ∃ s' r rest,
    get_gold_prices_historical w s = (s', Ok r) ∧
    io_trace s' =
      io_trace s ++ CacheRead :: NbpRequest (days_to_show s) :: rest.
Proof.
  intros Hmiss.
  destruct (gold_chain_cases w s) as (r & Hload & Hcases).
  destruct (series_truthy r) eqn:Ht.
  { exfalso. apply Hmiss. destruct r as [prices|]; [|done].
    exists prices. split; [by apply (load_cached_prices_fresh w s _ Hload)|].
    intros ->. assert (series_truthy (Some (∅ : gmap string float)) = false)
      by by apply series_truthy_false.
    congruence. }
  destruct Hcases as [(data & prices & _ & _ & Hrun)
                     |(_ & s2 & _ & _ & _ & Hio & Hrun)].
  - rewrite Hrun.
    destruct (cache_prices_run w prices
                (add_io (NbpRequest (days_to_show s)) (add_io CacheRead s)))
      as (s1 & Hc & _ & _ & Hio1).
    rewrite Hc. simpl. do 3 eexists. split; [reflexivity|]. simpl.
    rewrite Hio1. simpl. by rewrite <- !app_assoc.
  - rewrite Hrun. destruct (yfinance_run w s2) as (s' & -> & _ & _ & Hio').
    do 3 eexists. split; [reflexivity|]. rewrite Hio', Hio. simpl.
    by rewrite <- !app_assoc.
Qed.

(** X5: when the cache misses and both gold sources fail, the chain
    returns [None], both statuses read failed, the failure of the fallback
    is logged and the cache file is left alone. *)
Theorem gold_chain_all_fail (w : World) (s : App) (e : exn) :
  cache_misses w s →
  primary_fails w (days_to_show s) →
  yf_history w (days_to_show s) = Raise e →
  ∃ s', get_gold_prices_historical w s = (s', Ok None) ∧
        api_status s' !! "NBP" = Some false ∧
        api_status s' !! "YFinance" = Some false ∧
        status_labels s' !! "YFinance" = Some (false, ExnDetail e) ∧
        last (log s') = Some (LogStatus "YFinance" false (ExnDetail e)) ∧
        LogYFinanceError e ∈ log s' ∧
        cache_file s' = cache_file s.
Proof.
  intros (r0 & Hr0 & Hmiss) Hprim Hyf.
  destruct (gold_chain_cases w s) as (r & Hload & Hcases).
  rewrite Hload in Hr0. injection Hr0 as ->. rewrite Hmiss in Hcases.
  destruct Hcases as [(data & prices & Hreply & Hparse & _)
                     |(_ & s2 & Hview & Hst & Hfile & _ & Hrun)].
  { exfalso. unfold primary_fails in Hprim. rewrite Hreply in Hprim.
    destruct Hprim as [?|[e' He']]; [done|]. simpl in He'. congruence. }
  rewrite Hrun. destruct Hview as (Hd & _).
  unfold get_gold_prices_yfinance. py_unfold. simpl.
  rewrite Hd, Hyf. simpl. eexists. split; [reflexivity|]. simpl.
  rewrite lookup_insert_ne, Hst, !lookup_insert_eq by done.
  repeat (split; [done|]). rewrite last_snoc. split; [done|]. split; [|done].
  rewrite !elem_of_app, !list_elem_of_singleton. auto.
Qed.

(** X6: the gold leg is absent exactly when, after the run, both gold
    statuses read failed. *)
Theorem gold_absent_iff_both_failed (w : World) (s : App) :
  (get_gold_prices_historical w s).2 = Ok None ↔
  api_status (get_gold_prices_historical w s).1 !! "NBP" = Some false ∧
  api_status (get_gold_prices_historical w s).1 !! "YFinance" = Some false.
Proof.
  destruct (gold_chain_cases w s) as (r & Hload & Hcases).
  destruct (series_truthy r) eqn:Ht.
  { rewrite Hcases. simpl. rewrite lookup_insert_eq.
    split; [|by intros [[=] _]]. intros [= ->]. done. }
  destruct Hcases as [(data & prices & _ & _ & Hrun)
                     |(_ & s2 & Hview & Hst & _ & _ & Hrun)].
  - rewrite Hrun. simpl. rewrite lookup_insert_eq.
    split; [done|by intros [[=] _]].
  - rewrite Hrun.
    destruct (yfinance_run w s2) as (s' & -> & _ & Hst' & _). simpl.
    rewrite Hst', lookup_insert_ne, Hst, !lookup_insert_eq by done.
    destruct (yfinance_result w (days_to_show s2)) as [prices|]; simpl.
    + split; [done|by intros [_ [=]]].
    + done.
Qed.

(** X7: a series that came from the fallback is not cached: after such a
    run the cache file is as before, so the next read of the cache gives
    what it would have given without the run. *)
Theorem fallback_series_not_cached (w w2 : World) (s : App) :
  cache_misses w s →
  primary_fails w (days_to_show s) →
  cache_file (get_gold_prices_historical w s).1 = cache_file s ∧
  (load_cached_prices w2 (get_gold_prices_historical w s).1).2 =
    (load_cached_prices w2 s).2.
Proof.
  intros (r0 & Hr0 & Hmiss) Hprim.
  destruct (gold_chain_cases w s) as (r & Hload & Hcases).
  rewrite Hload in Hr0. injection Hr0 as ->. rewrite Hmiss in Hcases.
  destruct Hcases as [(data & prices & Hreply & Hparse & _)
                     |(_ & s2 & _ & _ & Hfile & _ & Hrun)].
  { exfalso. unfold primary_fails in Hprim. rewrite Hreply in Hprim.
    destruct Hprim as [?|[e' He']]; [done|]. simpl in He'. congruence. }
  assert (Hsame : cache_file (get_gold_prices_historical w s).1 = cache_file s).
  { rewrite Hrun. unfold get_gold_prices_yfinance. py_unfold. simpl.
    by destruct (yf_history w (days_to_show s2)). }
  split; [done|]. by rewrite !load_cached_prices_value, Hsame.
Qed.

(** X8: the cache is not keyed by the day count: after NBP delivered a
    series for one day count and the write succeeded, a run within the hour
    returns that same series for any other day count, without a request. *)
Theorem cached_series_ignores_days (w1 w2 : World) (s : App)
    (data : list nbp_item) (prices : gmap string float) (days : Z) :
  cache_misses w1 s →
  nbp_get w1 (days_to_show s) = Reply 200 (Ok data) →
  nbp_prices data ∅ = Ok prices →
  prices ≠ ∅ →
  cache_write w1 = WriteOk →
  now_load w2 - now_store w1 < timedelta_hours 1 →
  let s1 := set_days_to_show days (get_gold_prices_historical w1 s).1 in
  (get_gold_prices_historical w2 s1).2 = Ok (Some prices) ∧
  io_trace (get_gold_prices_historical w2 s1).1 = io_trace s1 ++ [CacheRead].
Proof.
  intros (r0 & Hr0 & Hmiss) Hreply Hparse Hne Hw Hage s1.
  destruct (gold_chain_cases w1 s) as (r & Hload & Hcases).
  rewrite Hload in Hr0. injection Hr0 as ->. rewrite Hmiss in Hcases.
  destruct Hcases as [(data' & prices' & Hreply' & Hparse' & Hrun)
                     |(Hprim & _)].
  2:{ exfalso. unfold primary_fails in Hprim. rewrite Hreply in Hprim.
      destruct Hprim as [?|[e' He']]; [done|]. simpl in He'. congruence. }
  assert (data' = data) as -> by congruence.
  assert (prices' = prices) as -> by congruence.
  assert (Hfile : cache_file s1 =
            Document (JObject {| member_timestamp := Some (TsNumber (now_store w1));
                                 member_prices := Some prices |})).
  { unfold s1. rewrite Hrun. simpl. by rewrite cache_prices_file, Hw. }
  destruct (gold_chain_cases w2 s1) as (r2 & Hload2 & Hcases2).
  rewrite load_cached_prices_value, Hfile in Hload2.
  rewrite bool_decide_eq_true_2 in Hload2 by done.
  injection Hload2 as <-.
  destruct (series_truthy (Some prices)) eqn:Ht;
    [|by apply series_truthy_false in Ht].
  by rewrite Hcases2.
Qed.

(** ** The loops of the adapters *)

Lemma yfinance_prices_app (l1 l2 : list (string * float))
    (acc : gmap string float) :
  yfinance_prices (l1 ++ l2) acc = yfinance_prices l2 (yfinance_prices l1 acc).
Proof.
  revert acc. induction l1 as [|[d c] l1 IH]; intros acc; simpl; [done|].
  apply IH.
Qed.

Lemma yfinance_prices_other (rows : list (string * float))
    (acc : gmap string float) (d : string) :
  d ∉ rows.*1 → yfinance_prices rows acc !! d = acc !! d.
Proof.
  revert acc. induction rows as [|[d' c] rows IH]; intros acc Hd; simpl;
    [done|].
  apply not_elem_of_cons in Hd as [Hne Hd].
  rewrite IH by done. by apply lookup_insert_ne.
Qed.

Lemma yfinance_prices_dom (rows : list (string * float))
    (acc : gmap string float) (d : string) :
  d ∈ dom (yfinance_prices rows acc) ↔ d ∈ dom acc ∨ d ∈ rows.*1.
Proof.
  revert acc. induction rows as [|[d' c] rows IH]; intros acc; simpl.
  - split; [by left|]. by intros [|?%elem_of_nil].
  - rewrite IH, dom_insert_L, elem_of_union, elem_of_singleton, elem_of_cons.
    tauto.
Qed.

(** X9: the fallback adapter keeps, for each date, ten times the close of
    the last row of that date, and has no other dates than those of the
    rows. *)
Theorem yfinance_last_row_wins (w : World) (s : App)
    (rows : list (string * float)) :
  yf_history w (days_to_show s) = Ok rows →
  ∃ s' prices,
    get_gold_prices_yfinance w s = (s', Ok (Some prices)) ∧
    (∀ d, d ∈ dom prices ↔ d ∈ rows.*1) ∧
    (∀ before after d close,
       rows = before ++ (d, close) :: after → d ∉ after.*1 →
       prices !! d = Some (close * 10)%float).
Proof.
  intros Hyf. destruct (yfinance_run w s) as (s' & Hrun & _).
  unfold yfinance_result in Hrun. rewrite Hyf in Hrun.
  exists s', (yfinance_prices rows ∅). split; [done|]. split.
  - intros d. rewrite yfinance_prices_dom, dom_empty_L.
    split; [by intros [?%elem_of_empty|]|by right].
  - intros before after d close -> Hafter.
    rewrite yfinance_prices_app. simpl.
    rewrite yfinance_prices_other by done. apply lookup_insert_eq.
Qed.

Lemma nbp_prices_app (l1 l2 : list nbp_item) (acc : gmap string float) :
  nbp_prices (l1 ++ l2) acc = nbp_prices l1 acc ≫= nbp_prices l2.
Proof.
  revert acc.
  induction l1 as [|[[d|] [[c|e]|]] l1 IH]; intros acc; simpl; done.
Qed.

Lemma nbp_prices_other (l : list nbp_item) (acc prices : gmap string float)
    (d : string) :
  nbp_prices l acc = Ok prices →
  (∀ item, item ∈ l → item_data item ≠ Some d) →
  prices !! d = acc !! d.
Proof.
  revert acc. induction l as [|[[d'|] [[c|e]|]] l IH]; intros acc; simpl;
    try done.
  - by intros [= ->].
  - intros Hrun Hother. rewrite (IH _ Hrun).
    + apply lookup_insert_ne. intros ->.
      by apply (Hother (NbpItem (Some d) (Some (Ok c)))); [left|].
    + intros item Hitem. apply Hother. by right.
Qed.

Lemma nbp_prices_total (l : list nbp_item) (acc : gmap string float) :
  Forall usable_item l ↔ ∃ prices, nbp_prices l acc = Ok prices.
Proof.
  revert acc. induction l as [|[[d|] [[c|e]|]] l IH]; intros acc; simpl.
  - split; [by eexists|constructor].
  - rewrite Forall_cons, <- IH. split; [by intros [_ ?]|].
    intros ?. split; [|done]. split; simpl; by eexists.
  - split; [|by intros []]. by intros [[_ [? [=]]] _]%Forall_cons.
  - split; [|by intros []]. by intros [[_ [? [=]]] _]%Forall_cons.
  - split; [|by intros []]. by intros [[[? [=]] _] _]%Forall_cons.
  - split; [|by intros []]. by intros [[[? [=]] _] _]%Forall_cons.
  - split; [|by intros []]. by intros [[[? [=]] _] _]%Forall_cons.
Qed.

(** X10: the NBP reply is taken as a whole or not at all: the loop yields
    prices exactly when every item has a date and a price that [float()]
    accepts, and then the price kept for a date is that of the last item of
    the date, converted by the factors 31.1034768 and 0.25.  An item whose
    price [float()] rejects stops the loop with the exception of [float()],
    an item without a price with [KeyError]; either way a reply with status
    200 then counts as a failure of the primary source. *)
Theorem nbp_reply_all_or_nothing (w : World) (days : Z)
    (data : list nbp_item) :
  (Forall usable_item data ↔ ∃ prices, nbp_prices data ∅ = Ok prices) ∧
  (∀ prices before after d cena,
     nbp_prices data ∅ = Ok prices →
     data = before ++ NbpItem (Some d) (Some (Ok cena)) :: after →
     (∀ item, item ∈ after → item_data item ≠ Some d) →
     prices !! d = Some (cena * 31.1034768 * 0.25)%float) ∧
  (∀ before after d e,
     data = before ++ NbpItem (Some d) (Some (Raise e)) :: after →
     Forall usable_item before →
     nbp_prices data ∅ = Raise e) ∧
  (∀ before after d,
     data = before ++ NbpItem (Some d) None :: after →
     Forall usable_item before →
     nbp_prices data ∅ = Raise (KeyError "cena")) ∧
  (nbp_get w days = Reply 200 (Ok data) →
   ¬ Forall usable_item data →
   primary_fails w days).
Proof.
  split; [apply nbp_prices_total|]. split; [|split; [|split]].
  - intros prices before after d cena Hrun -> Hafter.
    rewrite nbp_prices_app in Hrun.
    destruct (nbp_prices before ∅) as [mid|e]; [|done]. simpl in Hrun.
    rewrite (nbp_prices_other _ _ _ _ Hrun Hafter). apply lookup_insert_eq.
  - intros before after d e -> Hbefore. rewrite nbp_prices_app.
    by apply (nbp_prices_total before ∅) in Hbefore as [mid ->].
  - intros before after d -> Hbefore. rewrite nbp_prices_app.
    by apply (nbp_prices_total before ∅) in Hbefore as [mid ->].
  - intros Hreply Hbad. unfold primary_fails. rewrite Hreply. right. simpl.
    destruct (nbp_prices data ∅) as [prices|e] eqn:Hrun; [|by eexists].
    exfalso. apply Hbad, (nbp_prices_total data ∅). by eexists.
Qed.

Lemma bitcoin_prices_converts (w : World) (data : list (Z * float))
    (acc prices : gmap string float) :
  bitcoin_prices w data acc = Ok prices →
  ∀ x, x ∈ data → ∃ date, local_date w x.1 = Ok date.
Proof.
  revert acc. induction data as [|[ts price] data IH]; intros acc Hrun x Hx.
  - by apply elem_of_nil in Hx.
  - simpl in Hrun. destruct (local_date w ts) as [date|e] eqn:Hd; [|done].
    simpl in Hrun. apply elem_of_cons in Hx as [->|Hx]; [by eexists|].
    case_bool_decide; by eapply IH.
Qed.

Lemma bitcoin_prices_dom (w : World) (data : list (Z * float))
    (acc prices : gmap string float) (d : string) :
  bitcoin_prices w data acc = Ok prices →
  d ∈ dom prices ↔ d ∈ dom acc ∨ ∃ x, x ∈ data ∧ local_date w x.1 = Ok d.
Proof.
  revert acc. induction data as [|[ts price] data IH]; intros acc; simpl.
  - intros [= ->]. split; [by left|]. by intros [|(x & ?%elem_of_nil & _)].
  - destruct (local_date w ts) as [date|e] eqn:Hd; simpl; [|done].
    case_bool_decide as Hin; intros Hrun; rewrite (IH _ Hrun).
    + split.
      * intros [|(x & Hx & Hdx)]; [by left|]. right. exists x.
        split; [by right|done].
      * intros [|(x & [->|Hx]%elem_of_cons & Hdx)]; [by left| |by eauto].
        left. simpl in Hdx. congruence.
    + rewrite dom_insert_L, elem_of_union, elem_of_singleton. split.
      * intros [[->|]|(x & Hx & Hdx)]; [|by left|].
        -- right. exists (ts, price). split; [by left|done].
        -- right. exists x. split; [by right|done].
      * intros [|(x & [->|Hx]%elem_of_cons & Hdx)]; [by left; right| |by eauto].
        left. left. simpl in Hdx. congruence.
Qed.

(** X11: the crypto adapter returns a series exactly when the reply has
    status 200, a readable body and only observations whose date can be
    formed; its status is set accordingly, and it leaves the gold statuses
    and the cache file alone. *)
Theorem bitcoin_series_iff (w : World) (s : App) :
  ∃ s' r,
    get_bitcoin_prices_historical w s = (s', Ok r) ∧
    (is_Some r ↔
     ∃ data, coingecko_get w (days_to_show s) = Reply 200 (Ok data) ∧
             ∀ x, x ∈ data → ∃ date, local_date w x.1 = Ok date) ∧
    api_status s' = <["CoinGecko" := bool_decide (is_Some r)]> (api_status s) ∧
    cache_file s' = cache_file s.
Proof.
  unfold get_bitcoin_prices_historical. py_unfold. simpl.
  destruct (coingecko_get w (days_to_show s)) as [e|code [data|e]] eqn:Hreply;
    simpl.
  - do 2 eexists. split; [reflexivity|]. split; [|done].
    split; [by intros []|]. by intros (? & [=] & _).
  - case_bool_decide as Hcode; simpl.
    + destruct (bitcoin_prices w data ∅) as [prices|e] eqn:Hloop; simpl.
      * do 2 eexists. split; [reflexivity|]. split; [|done].
        split; [|by eexists]. intros _. exists data. subst code.
        split; [done|]. by eapply bitcoin_prices_converts.
      * do 2 eexists. split; [reflexivity|]. split; [|done].
        split; [by intros []|]. intros (data' & [= _ <-] & Hconv).
        destruct (bitcoin_prices_total w data ∅ Hconv). congruence.
    + do 2 eexists. split; [reflexivity|]. split; [|done].
      split; [by intros []|]. intros (? & [= ? _] & _). done.
  - case_bool_decide as Hcode; simpl.
    + do 2 eexists. split; [reflexivity|]. split; [|done].
      split; [by intros []|]. by intros (? & [=] & _).
    + do 2 eexists. split; [reflexivity|]. split; [|done].
      split; [by intros []|]. by intros (? & [=] & _).
Qed.

(** X12: the dates of the series returned by the crypto adapter are the
    calendar dates of the observations, no more and no less, so the series
    has at most as many dates as the reply has observations. *)
Theorem bitcoin_series_dates (w : World) (s : App) (data : list (Z * float)) :
  coingecko_get w (days_to_show s) = Reply 200 (Ok data) →
  (∀ x, x ∈ data → ∃ date, local_date w x.1 = Ok date) →
  ∃ s' prices,
    get_bitcoin_prices_historical w s = (s', Ok (Some prices)) ∧
    (∀ d, d ∈ dom prices ↔ ∃ x, x ∈ data ∧ local_date w x.1 = Ok d) ∧
    (data = [] → prices = ∅).
Proof.
  intros Hreply Hconv.
  destruct (bitcoin_prices_total w data ∅ Hconv) as [prices Hloop].
  unfold get_bitcoin_prices_historical. py_unfold. simpl.
  rewrite Hreply. simpl. rewrite Hloop. simpl.
  do 2 eexists. split; [reflexivity|]. split.
  - intros d. rewrite (bitcoin_prices_dom _ _ _ _ _ Hloop), dom_empty_L.
    split; [by intros [?%elem_of_empty|]|by right].
  - intros ->. simpl in Hloop. congruence.
Qed.

(** X13: [calculate_ratio] raises [ZeroDivisionError] exactly when the
    divisor the mode selects compares equal to zero: the gold price in mode
    [btc_gold], the bitcoin price in any other mode; it never changes the
    state. *)
Theorem calculate_ratio_zero_divisor (s : App) (gold_price btc_price : float) :
  let divisor :=
    if bool_decide (ratio_mode s = "btc_gold") then gold_price else btc_price in
  (calculate_ratio gold_price btc_price s).1 = s ∧
  ((calculate_ratio gold_price btc_price s).2 = Raise ZeroDivisionError ↔
   PrimFloat.eqb divisor 0 = true) ∧
  (PrimFloat.eqb divisor 0 = false →
   ∃ ratio, (calculate_ratio gold_price btc_price s).2 = Ok ratio).
Proof.
  unfold calculate_ratio, truediv. py_unfold. simpl.
  case_bool_decide; simpl;
    [destruct (PrimFloat.eqb gold_price 0)
    |destruct (PrimFloat.eqb btc_price 0)]; simpl;
    (split; [done|]); (split; [|by eauto]); by split.
Qed.

(** * Further properties of the refresh cycle *)

Lemma StronglySorted_filter {A : Type} (R : relation A) (P : A → Prop)
    `{!∀ x, Decision (P x)} (l : list A) :
  StronglySorted R l → StronglySorted R (filter P l).
Proof.
  induction 1 as [|x l Hl IH Hx]; [constructor|].
  rewrite filter_cons. case_decide; [|done].
  constructor; [done|]. rewrite Forall_forall in Hx |- *.
  intros y [_ Hy]%list_elem_of_filter. by apply Hx.
Qed.

Lemma ratio_rows_bounds (mode : string) (limit : Z)
    (gold bitcoin : gmap string float) :
  0 < limit →
  (length (ratio_rows mode limit gold bitcoin) ≤ Z.to_nat limit)%nat ∧
  StronglySorted (strict String.le)
    (row_date <$> ratio_rows mode limit gold bitcoin).
Proof.
  intros Hlimit.
  destruct (selected_dates_latest limit gold bitcoin Hlimit)
    as (Hsorted & _ & Hlen & _).
  unfold ratio_rows.
  rewrite <- (length_fmap row_date), ratio_rows_dates. split.
  - etrans; [apply length_filter|]. lia.
  - by apply StronglySorted_filter.
Qed.

(** X14: after a refresh with a positive day count the dataset has at most
    that many rows, and their dates are strictly ascending, so no date
    appears twice. *)
Theorem refresh_rows_bounded_ascending (w : World) (s : App) :
  0 < days_to_show s →
  (length (current_data (refresh_data w s).1) ≤ Z.to_nat (days_to_show s))%nat ∧
  StronglySorted (strict String.le)
    (row_date <$> current_data (refresh_data w s).1) ∧
  NoDup (row_date <$> current_data (refresh_data w s).1).
Proof.
  intros Hdays. destruct (refresh_data_rows w s Hdays) as (_ & -> & _).
  assert (Hboth :
    (length (if series_truthy (fetch_prices w s).1 &&
                series_truthy (fetch_prices w s).2
             then ratio_rows (ratio_mode s) (days_to_show s)
                    (default ∅ (fetch_prices w s).1)
                    (default ∅ (fetch_prices w s).2)
             else []) ≤ Z.to_nat (days_to_show s))%nat ∧
    StronglySorted (strict String.le)
      (row_date <$>
         (if series_truthy (fetch_prices w s).1 &&
             series_truthy (fetch_prices w s).2
          then ratio_rows (ratio_mode s) (days_to_show s)
                 (default ∅ (fetch_prices w s).1)
                 (default ∅ (fetch_prices w s).2)
          else []))).
  { destruct (_ && _); [by apply ratio_rows_bounds|].
    simpl. split; [lia|constructor]. }
  destruct Hboth as [Hlen Hsorted]. split; [done|]. split; [done|].
  clear Hlen. induction Hsorted as [|d l Hl IH Hd]; constructor; [|done].
  intros Hin. rewrite Forall_forall in Hd.
  by destruct (irreflexivity (strict String.le) d (Hd d Hin)).
Qed.

(** X15: when both series hold at least one date the refresh reports
    success, with the time of the refresh on the label and no dialog, also
    when the two series share no date and the table therefore stays empty. *)
Theorem refresh_without_common_dates (w : World) (s : App)
    (gold bitcoin : gmap string float) :
  0 < days_to_show s →
  fetch_prices w s = (Some gold, Some bitcoin) →
  gold ≠ ∅ → bitcoin ≠ ∅ →
  refresh_label (refresh_data w s).1 = LastRefreshed (now_refresh w) ∧
  dialogs (refresh_data w s).1 = dialogs s ∧
  (dom gold ∩ dom bitcoin = ∅ →
   current_data (refresh_data w s).1 = [] ∧ tree (refresh_data w s).1 = []).
Proof.
  intros Hdays Hfetch Hg Hb.
  assert (Htruthy : series_truthy (Some gold) && series_truthy (Some bitcoin)
                    = true).
  { apply andb_true_iff. split.
    - destruct (series_truthy (Some gold)) eqn:Ht; [done|].
      by apply series_truthy_false in Ht.
    - destruct (series_truthy (Some bitcoin)) eqn:Ht; [done|].
      by apply series_truthy_false in Ht. }
  destruct (refresh_data_rows w s Hdays) as (_ & Hrows & Htree).
  rewrite Htree, Hrows. rewrite refresh_data_run by done. unfold refreshed.
  destruct (fetch_view w s) as (_ & _ & _ & _ & _ & _ & Hdialogs).
  rewrite Hfetch. simpl. rewrite Htruthy. simpl.
  split; [done|]. split; [done|]. intros Hdisjoint.
  assert (ratio_rows (ratio_mode s) (days_to_show s) gold bitcoin = []) as ->;
    [|done].
  destruct (selected_dates_latest _ gold bitcoin Hdays) as (_ & _ & Hlen & _).
  rewrite Hdisjoint, size_empty, Nat.min_0_r in Hlen.
  unfold ratio_rows. by apply nil_length_inv in Hlen as ->.
Qed.

(** X16: the table and the dataset go together: if they hold the same rows
    before [refresh_data] or [set_days], they hold the same rows after,
    whatever the day count and the world. *)
Theorem tree_matches_current_data (w : World) (days : Z) (s : App) :
  tree s = current_data s →
  tree (refresh_data w s).1 = current_data (refresh_data w s).1 ∧
  tree (set_days w days s).1 = current_data (set_days w days s).1.
Proof.
  assert (Hrefresh : ∀ s0, tree s0 = current_data s0 →
            tree (refresh_data w s0).1 = current_data (refresh_data w s0).1).
  { intros s0 Hinv. destruct (decide (0 < days_to_show s0)) as [Hdays|Hdays].
    - by apply refresh_data_rows.
    - unfold refresh_data. py_unfold. simpl.
      by rewrite bool_decide_eq_true_2 by lia. }
  intros Hinv. split; [by apply Hrefresh|].
  unfold set_days. py_unfold. simpl. by apply Hrefresh.
Qed.


Lemma bitcoin_status (w : World) (s : App) :
  ∃ s' r, get_bitcoin_prices_historical w s = (s', Ok r) ∧
          api_status s' =
            <["CoinGecko" := bool_decide (is_Some r)]> (api_status s).
Proof.
  unfold get_bitcoin_prices_historical. py_unfold. simpl.
  destruct (coingecko_get w (days_to_show s)) as [e|code [data|e]]; simpl;
    try case_bool_decide; simpl;
    try destruct (bitcoin_prices w data ∅); simpl;
    by do 2 eexists.
Qed.

Lemma gold_status (w : World) (s : App) :
  ∃ s' r, get_gold_prices_historical w s = (s', Ok r) ∧
          is_Some (api_status s' !! "NBP") ∧
          (is_Some r → api_status s' !! "NBP" = Some true ∨
                       api_status s' !! "YFinance" = Some true).
Proof.
  destruct (gold_chain_cases w s) as (r & Hload & Hcases).
  destruct (series_truthy r) eqn:Ht.
  { rewrite Hcases. do 2 eexists. split; [reflexivity|]. simpl.
    rewrite lookup_insert_eq. split; [by eexists|by left]. }
  destruct Hcases as [(data & prices & _ & _ & Hrun)
                     |(_ & s2 & _ & Hst & _ & _ & Hrun)].
  - rewrite Hrun. do 2 eexists. split; [reflexivity|]. simpl.
    rewrite lookup_insert_eq. split; [by eexists|by left].
  - rewrite Hrun. destruct (yfinance_run w s2) as (s' & -> & _ & Hst' & _).
    do 2 eexists. split; [reflexivity|].
    rewrite Hst', lookup_insert_ne, Hst, !lookup_insert_eq by done.
    split; [by eexists|]. intros Hsome. right.
    by rewrite bool_decide_eq_true_2.
Qed.

(** X18: every refresh with a positive day count leaves a status for NBP
    and one for CoinGecko; rows are on display only if CoinGecko reads
    success and NBP or YFinance reads success. *)
Theorem rows_imply_success_statuses (w : World) (s : App) :
  0 < days_to_show s →
  is_Some (api_status (refresh_data w s).1 !! "NBP") ∧
  is_Some (api_status (refresh_data w s).1 !! "CoinGecko") ∧
  (current_data (refresh_data w s).1 ≠ [] →
   api_status (refresh_data w s).1 !! "CoinGecko" = Some true ∧
   (api_status (refresh_data w s).1 !! "NBP" = Some true ∨
    api_status (refresh_data w s).1 !! "YFinance" = Some true)).
Proof.
  intros Hdays. destruct (refresh_data_rows w s Hdays) as (_ & -> & _).
  rewrite refresh_data_run by done. unfold refreshed, fetch_prices.
  destruct (gold_status w (cleared s)) as (s1 & g & -> & Hnbp & Hgold).
  simpl. destruct (bitcoin_status w s1) as (s2 & b & -> & Hst). simpl.
  assert (Hfinal : ∀ s3, api_status s3 = api_status s2 →
            is_Some (api_status s3 !! "NBP") ∧
            is_Some (api_status s3 !! "CoinGecko")).
  { intros s3 ->. rewrite Hst, lookup_insert_ne, lookup_insert_eq by done.
    split; [done|by eexists]. }
  destruct (series_truthy g && series_truthy b) eqn:Htruthy; simpl.
  - split; [by apply Hfinal|]. split; [by apply Hfinal|]. intros _.
    apply andb_true_iff in Htruthy as [Hg Hb].
    destruct g as [gold|]; [|done]. destruct b as [bitcoin|]; [|done].
    rewrite Hst, lookup_insert_eq, !lookup_insert_ne by done.
    split; [done|]. apply Hgold. by eexists.
  - split; [by apply Hfinal|]. split; [by apply Hfinal|]. done.
Qed.

(** * Properties of the export *)

Lemma write_headers_lookup (headers : list string) (col : nat)
    (cells : gmap (nat * nat) cell) (r c : nat) :
  write_headers headers col cells !! (r, c) =
    if decide (r = 1 ∧ col ≤ c < col + length headers)%nat
    then header_cell <$> headers !! (c - col)%nat
    else cells !! (r, c).
Proof.
  revert col cells. induction headers as [|h rest IH]; intros col cells; simpl.
  - by rewrite decide_False by lia.
  - rewrite IH. destruct (decide (r = 1 ∧ c = col)%nat) as [[-> ->]|Hne].
    + rewrite decide_False, decide_True by lia.
      rewrite lookup_insert_eq. by replace (col - col)%nat with 0%nat by lia.
    + rewrite lookup_insert_ne by (intros [= <- <-]; tauto).
      destruct (decide (r = 1 ∧ S col ≤ c < S col + length rest)%nat)
        as [Hin|Hout].
      * rewrite decide_True by lia.
        by replace (c - col)%nat with (S (c - S col)) by lia.
      * by rewrite decide_False by lia.
Qed.

Lemma write_data_lookup (data : list RatioPoint) (row : nat)
    (cells : gmap (nat * nat) cell) (r c : nat) :
  write_data data row cells !! (r, c) =
    if decide (row ≤ r < row + length data ∧ 1 ≤ c ≤ 4)%nat
    then data !! (r - row)%nat ≫= λ point, data_cell point c
    else cells !! (r, c).
Proof.
  revert row cells. induction data as [|p rest IH]; intros row cells; simpl.
  - by rewrite decide_False by lia.
  - rewrite IH.
    destruct (decide (S row ≤ r < S row + length rest ∧ 1 ≤ c ≤ 4)%nat)
      as [Hin|Hout].
    + rewrite decide_True by lia.
      by replace (r - row)%nat with (S (r - S row)) by lia.
    + destruct (decide (r = row ∧ 1 ≤ c ≤ 4)%nat) as [[-> Hc]|Hne].
      * rewrite decide_True by lia.
        replace (row - row)%nat with 0%nat by lia. simpl.
        assert (c = 1 ∨ c = 2 ∨ c = 3 ∨ c = 4)%nat as [-> | [-> | [-> | ->]]] by lia;
          simpl; repeat (rewrite lookup_insert_ne by congruence);
          apply lookup_insert_eq.
      * rewrite decide_False by lia.
        rewrite !lookup_insert_ne; [done|..]; intros [= <- <-]; lia.
Qed.

Lemma max_length_ge (env : ExportEnv) (column : list (option cell))
    (acc : nat) :
  (acc ≤ max_length env column acc)%nat ∧
  ∀ x, x ∈ column → (value_len env x ≤ max_length env column acc)%nat.
Proof.
  revert acc. induction column as [|c rest IH]; intros acc; simpl.
  - split; [done|]. by intros x ?%elem_of_nil.
  - destruct (IH (if bool_decide (acc < value_len env c)%nat
                  then value_len env c else acc)) as [Hacc Hin].
    split.
    + etrans; [|exact Hacc]. case_bool_decide; lia.
    + intros x [->|Hx]%elem_of_cons; [|by apply Hin].
      etrans; [|exact Hacc]. case_bool_decide; lia.
Qed.

Lemma widths_lookup (f : nat → nat) (cols : list nat) (acc : gmap nat nat)
    (c : nat) :
  foldl (λ widths col, <[col := f col]> widths) acc cols !! c =
    if decide (c ∈ cols) then Some (f c) else acc !! c.
Proof.
  revert acc. induction cols as [|col cols IH]; intros acc.
  - destruct (decide (c ∈ [])) as [Hin|_]; [by apply elem_of_nil in Hin|done].
  - cbn [foldl]. rewrite IH.
    destruct (decide (c ∈ cols)) as [Hin|Hout],
             (decide (c ∈ col :: cols)) as [Hin'|Hout']; try done.
    + exfalso. apply Hout'. by right.
    + apply elem_of_cons in Hin' as [->|?]; [|done]. apply lookup_insert_eq.
    + apply lookup_insert_ne. intros ->. apply Hout'. by left.
Qed.

Lemma adjust_widths_fit (env : ExportEnv) (cells : gmap (nat * nat) cell)
    (r c : nat) (x : cell) :
  cells !! (r, c) = Some x → (1 ≤ r)%nat → (1 ≤ c)%nat →
  ∃ width, adjust_widths env cells !! c = Some width ∧
           (str_len env (cell_content x) + 2 ≤ width)%nat.
Proof.
  intros Hx Hr Hc.
  assert (Hkey : ((r, c), x) ∈ map_to_list cells)
    by by apply elem_of_map_to_list.
  assert (r ≤ max_row cells)%nat.
  { apply max_list_elem_of_le, list_elem_of_fmap. by exists ((r, c), x). }
  assert (c ≤ max_column cells)%nat.
  { apply max_list_elem_of_le, list_elem_of_fmap. by exists ((r, c), x). }
  unfold adjust_widths. rewrite widths_lookup.
  rewrite decide_True by (apply elem_of_seq; lia).
  eexists. split; [done|]. apply Nat.add_le_mono_r.
  apply (proj2 (max_length_ge env (column_cells cells c) 0) (Some x)).
  unfold column_cells. apply list_elem_of_fmap. exists r.
  split; [done|]. apply elem_of_seq. lia.
Qed.

Lemma export_run (env : ExportEnv) (s : App) :
  export_to_excel env s =
    match current_data s with
    | [] => (add_dialog "Error" "No data to export!" s, Ok no_effects)
    | _ :: _ =>
        if bool_decide (asksaveasfilename env = "") then (s, Ok no_effects)
        else
          match wb_save env (asksaveasfilename env) with
          | Ok _ =>
              (s, Ok {| saved := Some (asksaveasfilename env,
                                       exported_workbook env s);
                        info_dialog :=
                          Some ("Success",
                                "Data exported successfully to:" +:+ newline
                                  +:+ asksaveasfilename env);
                        export_logged := None |})
          | Raise e =>
              (add_dialog "Error"
                 ("An error occurred while exporting:" +:+ newline
                    +:+ exn_str env e) s,
               Ok {| saved := None; info_dialog := None;
                     export_logged := Some e |})
          end
    end.
Proof.
  unfold export_to_excel, exported_workbook, get_ratio_column_name.
  py_unfold. simpl. destruct (current_data s) as [|p rest] eqn:Hdata; [done|].
  case_bool_decide; [done|]. simpl.
  by destruct (wb_save env (asksaveasfilename env)) as [[]|e].
Qed.

(** X19: [export_to_excel] never raises and writes a file exactly when the
    dataset has a row, the user gave a path and the save went through; with
    no row it shows "No data to export!" without asking for a path, a
    cancelled dialog leaves no trace at all, and a failed save is logged and
    shown as an error.  The dataset, the table and the cache file are never
    changed. *)
Theorem export_outcomes (env : ExportEnv) (s : App) :
  ∃ s' eff,
    export_to_excel env s = (s', Ok eff) ∧
    (is_Some (saved eff) ↔
     current_data s ≠ [] ∧ asksaveasfilename env ≠ "" ∧
     wb_save env (asksaveasfilename env) = Ok ()) ∧
    (is_Some (info_dialog eff) ↔ is_Some (saved eff)) ∧
    (current_data s = [] →
     eff = no_effects ∧
     dialogs s' = dialogs s ++ [("Error", "No data to export!")]) ∧
    (current_data s ≠ [] → asksaveasfilename env = "" →
     eff = no_effects ∧ s' = s) ∧
    (∀ e, current_data s ≠ [] → asksaveasfilename env ≠ "" →
          wb_save env (asksaveasfilename env) = Raise e →
          export_logged eff = Some e ∧
          dialogs s' =
            dialogs s ++ [("Error", "An error occurred while exporting:"
                                      +:+ newline +:+ exn_str env e)]) ∧
    current_data s' = current_data s ∧ tree s' = tree s ∧
    cache_file s' = cache_file s ∧ api_status s' = api_status s ∧
    io_trace s' = io_trace s.
Proof.
  rewrite export_run.
  destruct (current_data s) as [|p rest] eqn:Hdata.
  { do 2 eexists. split; [reflexivity|]. simpl.
    split; [split; [by intros []|by intros [? _]]|].
    split; [done|]. by repeat split. }
  case_bool_decide as Hpath.
  { do 2 eexists. split; [reflexivity|]. simpl.
    split; [split; [by intros []|by intros (_ & ? & _)]|].
    split; [done|]. by repeat split. }
  destruct (wb_save env (asksaveasfilename env)) as [[]|e] eqn:Hsave.
  - do 2 eexists. split; [reflexivity|]. simpl.
    split; [split; [done|by eexists]|].
    split; [split; by eexists|]. by repeat split.
  - do 2 eexists. split; [reflexivity|]. simpl.
    split; [split; [by intros []|by intros (_ & _ & [=])]|].
    split; [done|]. split; [done|]. split; [done|].
    split; [|done]. by intros e' _ _ [= ->].
Qed.

(** X20: the sheet of a written file has the four headings in row 1, the
    fourth named after the mode at the time of the export, then one row per
    row of the dataset in the same order, with the date and the three
    numbers in columns 1 to 4, and no other cell. *)
Theorem export_sheet_content (env : ExportEnv) (s : App) :
  current_data s ≠ [] →
  asksaveasfilename env ≠ "" →
  wb_save env (asksaveasfilename env) = Ok () →
  ∃ eff wb,
    export_to_excel env s = (s, Ok eff) ∧
    saved eff = Some (asksaveasfilename env, wb) ∧
    wb_title wb = "Price Ratio Data" ∧
    wb_cells wb !! (1, 1)%nat = Some (header_cell "Date") ∧
    wb_cells wb !! (1, 2)%nat = Some (header_cell "Gold Price (USD)") ∧
    wb_cells wb !! (1, 3)%nat = Some (header_cell "Bitcoin Price (USD)") ∧
    wb_cells wb !! (1, 4)%nat =
      Some (header_cell (if bool_decide (ratio_mode s = "btc_gold")
                         then "BTC/Gold Ratio" else "Gold/BTC Ratio")) ∧
    (∀ i point col,
       current_data s !! i = Some point → (1 ≤ col ≤ 4)%nat →
       wb_cells wb !! ((i + 2)%nat, col) = data_cell point col) ∧
    (∀ r c, is_Some (wb_cells wb !! (r, c)) ↔
            (1 ≤ r ≤ length (current_data s) + 1)%nat ∧ (1 ≤ c ≤ 4)%nat).
Proof.
  intros Hdata Hpath Hsave. rewrite export_run.
  destruct (current_data s) as [|p rest] eqn:Hrows; [done|].
  rewrite bool_decide_eq_false_2, Hsave by done.
  do 2 eexists. split; [reflexivity|]. split; [reflexivity|].
  unfold exported_workbook. rewrite Hrows. cbn [wb_title wb_cells].
  split; [done|].
  assert (Hcell : ∀ r c,
    write_data (p :: rest) 2
      (write_headers
         ["Date"; "Gold Price (USD)"; "Bitcoin Price (USD)";
          if bool_decide (ratio_mode s = "btc_gold") then "BTC/Gold Ratio"
          else "Gold/BTC Ratio"] 1 ∅) !! (r, c) =
    if decide (2 ≤ r < 2 + length (p :: rest) ∧ 1 ≤ c ≤ 4)%nat
    then (p :: rest) !! (r - 2)%nat ≫= λ point, data_cell point c
    else if decide (r = 1 ∧ 1 ≤ c < 1 + 4)%nat
         then header_cell <$>
                ["Date"; "Gold Price (USD)"; "Bitcoin Price (USD)";
                 if bool_decide (ratio_mode s = "btc_gold")
                 then "BTC/Gold Ratio" else "Gold/BTC Ratio"] !! (c - 1)%nat
         else None).
  { intros r c. rewrite write_data_lookup, write_headers_lookup.
    by rewrite lookup_empty. }
  repeat (split; [by rewrite Hcell|]). split.
  - intros i point col Hi Hcol. rewrite Hcell.
    apply lookup_lt_Some in Hi as Hlt.
    rewrite decide_True by lia.
    replace (i + 2 - 2)%nat with i by lia. by rewrite Hi.
  - intros r c. rewrite Hcell.
    destruct (decide (2 ≤ r < 2 + length (p :: rest) ∧ 1 ≤ c ≤ 4)%nat)
      as [[Hr Hc]|Hout].
    + split; [intros _; lia|]. intros _.
      destruct (lookup_lt_is_Some_2 (p :: rest) (r - 2)) as [point ->]; [lia|].
      simpl.
      assert (c = 1 ∨ c = 2 ∨ c = 3 ∨ c = 4)%nat
        as [-> | [-> | [-> | ->]]] by lia; by eexists.
    + destruct (decide (r = 1 ∧ 1 ≤ c < 1 + 4)%nat) as [[-> Hc]|Hout'].
      * split; [intros _; simpl; lia|]. intros _.
        assert (c = 1 ∨ c = 2 ∨ c = 3 ∨ c = 4)%nat
          as [-> | [-> | [-> | ->]]] by lia; by eexists.
      * split; [by intros []|]. simpl in *. lia.
Qed.

(** X21: every column of a written file is wide enough for each of its
    cells: the width set for the column is at least the length of the
    cell's text plus two, and widths are set for columns 1 to 4. *)
Theorem export_widths_fit (env : ExportEnv) (s : App) :
  current_data s ≠ [] →
  asksaveasfilename env ≠ "" →
  wb_save env (asksaveasfilename env) = Ok () →
  ∃ eff wb,
    export_to_excel env s = (s, Ok eff) ∧
    saved eff = Some (asksaveasfilename env, wb) ∧
    (∀ r c x, wb_cells wb !! (r, c) = Some x →
              ∃ width, wb_widths wb !! c = Some width ∧
                       (str_len env (cell_content x) + 2 ≤ width)%nat) ∧
    (∀ c, (1 ≤ c ≤ 4)%nat → is_Some (wb_widths wb !! c)).
Proof.
  intros Hdata Hpath Hsave. rewrite export_run.
  destruct (current_data s) as [|p rest] eqn:Hrows; [done|].
  rewrite bool_decide_eq_false_2, Hsave by done.
  do 2 eexists. split; [reflexivity|]. split; [reflexivity|].
  unfold exported_workbook. rewrite Hrows. cbn [wb_widths wb_cells].
  set (cells := write_data (p :: rest) 2 _).
  assert (Hpos : ∀ r c x, cells !! (r, c) = Some x → (1 ≤ r)%nat ∧ (1 ≤ c)%nat).
  { intros r c x. unfold cells.
    rewrite write_data_lookup, write_headers_lookup, lookup_empty.
    repeat case_decide; try done; intros _; lia. }
  split.
  - intros r c x Hx. destruct (Hpos r c x Hx). by eapply adjust_widths_fit.
  - intros c Hc.
    assert (Hhead : is_Some (cells !! (1%nat, c))).
    { unfold cells.
      rewrite write_data_lookup, write_headers_lookup, lookup_empty.
      rewrite decide_False, decide_True by (simpl; lia).
      assert (c = 1 ∨ c = 2 ∨ c = 3 ∨ c = 4)%nat
        as [-> | [-> | [-> | ->]]] by lia; by eexists. }
    destruct Hhead as [x Hx].
    destruct (adjust_widths_fit env cells 1 c x Hx) as (width & -> & _);
      [lia..|]. by eexists.
Qed.

(** ** The concrete session, continued *)

Lemma cache_round_trip_witness :
  (load_cached_prices (later_world (timedelta_hours 1 - timedelta_seconds 1))
     (cache_prices demo_world gold_2000 (initial_app NotJson)).1).2 =
    Ok (Some gold_2000) ∧
  (load_cached_prices (later_world (timedelta_hours 1))
     (cache_prices demo_world gold_2000 (initial_app NotJson)).1).2 = Ok None.
Proof.
  split.
  - apply (cache_round_trip demo_world
             (later_world (timedelta_hours 1 - timedelta_seconds 1))
             gold_2000 (initial_app NotJson)).
    reflexivity.
  - apply (cache_round_trip demo_world (later_world (timedelta_hours 1))
             gold_2000 (initial_app NotJson)).
    reflexivity.
Defined.

Lemma failed_write_effect_witness :
  (load_cached_prices demo_world (initial_app (cached_gold 0))).2 =
    Ok (Some gold_2000) ∧
  (load_cached_prices demo_world
     (cache_prices disk_full_world nbp_three_days
        (initial_app (cached_gold 0))).1).2 = Ok None.
Proof.
  split; [vm_compute; reflexivity|].
  apply (failed_write_effect disk_full_world demo_world nbp_three_days
           (initial_app (cached_gold 0))).
  reflexivity.
Defined.

Lemma cache_hit_skips_network_witness :
  ∃ s', get_gold_prices_historical demo_world (initial_app (cached_gold 0)) =
          (s', Ok (Some gold_2000)) ∧
        io_trace s' = [CacheRead] ∧
        api_status s' !! "NBP" = Some true ∧
        status_labels s' !! "NBP" = Some (true, NoDetail) ∧
        last (log s') = Some (LogStatus "NBP" true NoDetail) ∧
        s' = set_status "NBP" true NoDetail
               (add_io CacheRead (initial_app (cached_gold 0))) ∧
        api_status s' !! "YFinance" = None ∧
        cache_file s' = cached_gold 0.
Proof.
  apply (cache_hit_skips_network demo_world (initial_app (cached_gold 0))
           gold_2000).
  - constructor. vm_compute. reflexivity.
  - intros Hempty. apply (f_equal (λ m, m !! "2024-01-01")) in Hempty.
    vm_compute in Hempty. discriminate.
Defined.

Lemma cache_miss_asks_primary_witness :
  ∃ s' r rest,
    get_gold_prices_historical demo_world
      (initial_app (cached_gold (timedelta_hours 1))) = (s', Ok r) ∧
    io_trace s' = CacheRead :: NbpRequest 7 :: rest.
Proof.
  apply (cache_miss_asks_primary demo_world
           (initial_app (cached_gold (timedelta_hours 1)))).
  intros (prices & Hfresh & _). inversion Hfresh as [t p Hage]; subst.
  vm_compute in Hage. discriminate.
Defined.

Lemma gold_chain_all_fail_witness :
  ∃ s', get_gold_prices_historical gold_down_world (initial_app NoFile) =
          (s', Ok None) ∧
        api_status s' !! "NBP" = Some false ∧
        api_status s' !! "YFinance" = Some false ∧
        status_labels s' !! "YFinance" =
          Some (false, ExnDetail RequestException) ∧
        last (log s') =
          Some (LogStatus "YFinance" false (ExnDetail RequestException)) ∧
        LogYFinanceError RequestException ∈ log s' ∧
        cache_file s' = NoFile.
Proof.
  apply (gold_chain_all_fail gold_down_world (initial_app NoFile)).
  - exists None. split; vm_compute; reflexivity.
  - exact I.
  - reflexivity.
Defined.

Lemma fallback_series_not_cached_witness :
  cache_file (get_gold_prices_historical nbp_down_world
                (initial_app NotJson)).1 = NotJson ∧
  (load_cached_prices demo_world
     (get_gold_prices_historical nbp_down_world (initial_app NotJson)).1).2 =
    Ok None.
Proof.
  apply (fallback_series_not_cached nbp_down_world demo_world
           (initial_app NotJson)).
  - exists None. split; vm_compute; reflexivity.
  - left. vm_compute. discriminate.
Defined.

Lemma cached_series_ignores_days_witness :
  let s1 := set_days_to_show 90
              (get_gold_prices_historical demo_world (initial_app NoFile)).1 in
  (get_gold_prices_historical
     (later_world (timedelta_seconds 1800)) s1).2 = Ok (Some nbp_three_days) ∧
  io_trace (get_gold_prices_historical
              (later_world (timedelta_seconds 1800)) s1).1 =
    io_trace s1 ++ [CacheRead].
Proof.
  apply (cached_series_ignores_days demo_world
           (later_world (timedelta_seconds 1800)) (initial_app NoFile)
           [NbpItem (Some "2024-01-01") (Some (Ok 250%float));
            NbpItem (Some "2024-01-02") (Some (Ok 260%float));
            NbpItem (Some "2024-01-03") (Some (Ok 255%float))]
           nbp_three_days 90).
  - exists None. split; vm_compute; reflexivity.
  - reflexivity.
  - vm_compute. reflexivity.
  - intros Hempty. apply (f_equal (λ m, m !! "2024-01-01")) in Hempty.
    vm_compute in Hempty. discriminate.
  - reflexivity.
  - vm_compute. reflexivity.
Defined.

Lemma yfinance_last_row_wins_witness :
  ∃ s' prices,
    get_gold_prices_yfinance nbp_down_world (initial_app NoFile) =
      (s', Ok (Some prices)) ∧
    prices !! "2024-01-03" = Some 1862.5%float ∧
    "2024-01-04" ∉ dom prices.
Proof.
  destruct (yfinance_last_row_wins nbp_down_world (initial_app NoFile)
              [("2024-01-02", 185.5%float); ("2024-01-03", 186.25%float)])
    as (s' & prices & Hrun & Hdom & Hlast); [reflexivity|].
  exists s', prices. split; [exact Hrun|]. split.
  - apply (Hlast [("2024-01-02", 185.5%float)] [] "2024-01-03" 186.25%float).
    + reflexivity.
    + by intros ?%elem_of_nil.
  - intros Hin%Hdom. simpl in Hin.
    repeat (apply elem_of_cons in Hin as [Hin|Hin]; [discriminate|]).
    by apply elem_of_nil in Hin.
Defined.

Lemma nbp_reply_all_or_nothing_witness :
  nbp_prices [NbpItem (Some "2024-01-01") (Some (Ok 250%float));
              NbpItem (Some "2024-01-02") (Some (Raise ValueError));
              NbpItem (Some "2024-01-03") None] ∅ = Raise ValueError ∧
  nbp_prices [NbpItem (Some "2024-01-01") (Some (Ok 250%float));
              NbpItem (Some "2024-01-02") None] ∅ = Raise (KeyError "cena") ∧
  primary_fails
    {| now_load := 0; now_store := 0; now_refresh := 0;
       cache_write := WriteOk;
       nbp_get := λ _, Reply 200
         (Ok [NbpItem (Some "2024-01-01") (Some (Ok 250%float));
              NbpItem (Some "2024-01-02") (Some (Raise ValueError))]);
       yf_history := λ _, Ok [];
       coingecko_get := λ _, RequestFails RequestException;
       local_date := utc_date |} 7 ∧
  nbp_three_days !! "2024-01-03" = Some (255 * 31.1034768 * 0.25)%float.
Proof.
  assert (Hfirst : Forall usable_item
                     [NbpItem (Some "2024-01-01") (Some (Ok 250%float))]).
  { constructor; [|constructor]. split; simpl; by eexists. }
  split; [|split; [|split]].
  - destruct (nbp_reply_all_or_nothing demo_world 7
                [NbpItem (Some "2024-01-01") (Some (Ok 250%float));
                 NbpItem (Some "2024-01-02") (Some (Raise ValueError));
                 NbpItem (Some "2024-01-03") None])
      as (_ & _ & Hrejected & _).
    apply (Hrejected [NbpItem (Some "2024-01-01") (Some (Ok 250%float))]
             [NbpItem (Some "2024-01-03") None] "2024-01-02");
      [reflexivity|exact Hfirst].
  - destruct (nbp_reply_all_or_nothing demo_world 7
                [NbpItem (Some "2024-01-01") (Some (Ok 250%float));
                 NbpItem (Some "2024-01-02") None])
      as (_ & _ & _ & Hmissing & _).
    apply (Hmissing [NbpItem (Some "2024-01-01") (Some (Ok 250%float))]
             [] "2024-01-02"); [reflexivity|exact Hfirst].
  - eapply (nbp_reply_all_or_nothing _ 7
              [NbpItem (Some "2024-01-01") (Some (Ok 250%float));
               NbpItem (Some "2024-01-02") (Some (Raise ValueError))]).
    + reflexivity.
    + intros Hall. apply Forall_cons in Hall as [_ Hall].
      apply Forall_cons in Hall as [[_ [x Hx]] _]. discriminate.
  - destruct (nbp_reply_all_or_nothing demo_world 7
                [NbpItem (Some "2024-01-01") (Some (Ok 250%float));
                 NbpItem (Some "2024-01-02") (Some (Ok 260%float));
                 NbpItem (Some "2024-01-03") (Some (Ok 255%float))])
      as (_ & Hlast & _).
    apply (Hlast nbp_three_days
             [NbpItem (Some "2024-01-01") (Some (Ok 250%float));
              NbpItem (Some "2024-01-02") (Some (Ok 260%float))] []).
    + vm_compute. reflexivity.
    + reflexivity.
    + by intros item ?%elem_of_nil.
Defined.

Lemma bitcoin_series_dates_witness :
  ∃ s' prices,
    get_bitcoin_prices_historical demo_world (initial_app NoFile) =
      (s', Ok (Some prices)) ∧
    "2024-01-02" ∈ dom prices ∧ "2024-01-01" ∉ dom prices.
Proof.
  destruct (bitcoin_series_dates demo_world (initial_app NoFile)
              [(jan1_ms + day_ms, 42000%float);
               (jan1_ms + day_ms + 3600000, 42100%float);
               (jan1_ms + 2 * day_ms, 43000%float);
               (jan1_ms + 3 * day_ms, 44000%float)])
    as (s' & prices & Hrun & Hdom & _).
  - reflexivity.
  - intros x Hx.
    repeat (apply elem_of_cons in Hx as [->|Hx]; [by eexists|]).
    by apply elem_of_nil in Hx.
  - exists s', prices. split; [exact Hrun|]. split.
    + apply Hdom. exists (jan1_ms + day_ms, 42000%float).
      split; [left|reflexivity].
    + intros (x & Hx & Hd)%Hdom.
      repeat (apply elem_of_cons in Hx as [->|Hx];
              [vm_compute in Hd; discriminate|]).
      by apply elem_of_nil in Hx.
Defined.

Lemma calculate_ratio_zero_divisor_witness :
  (calculate_ratio 0 40000 (initial_app NoFile)).2 = Raise ZeroDivisionError ∧
  (calculate_ratio (-0) 40000 (initial_app NoFile)).2 =
    Raise ZeroDivisionError ∧
  (∃ ratio, (calculate_ratio 2000 0 (initial_app NoFile)).2 = Ok ratio) ∧
  (calculate_ratio 2000 0 (set_ratio_mode "gold_btc" (initial_app NoFile))).2 =
    Raise ZeroDivisionError.
Proof.
  split; [|split; [|split]].
  - apply (calculate_ratio_zero_divisor (initial_app NoFile) 0 40000).
    reflexivity.
  - apply (calculate_ratio_zero_divisor (initial_app NoFile) (-0) 40000).
    reflexivity.
  - apply (calculate_ratio_zero_divisor (initial_app NoFile) 2000 0).
    reflexivity.
  - apply (calculate_ratio_zero_divisor
             (set_ratio_mode "gold_btc" (initial_app NoFile)) 2000 0).
    reflexivity.
Defined.

Lemma refresh_rows_bounded_ascending_witness :
  (length (current_data
             (refresh_data demo_world
                (set_days_to_show 1 (initial_app NoFile))).1) ≤ 1)%nat ∧
  NoDup (row_date <$> current_data
                        (refresh_data demo_world (initial_app NoFile)).1).
Proof.
  split.
  - apply (refresh_rows_bounded_ascending demo_world
             (set_days_to_show 1 (initial_app NoFile))).
    simpl. lia.
  - apply (refresh_rows_bounded_ascending demo_world (initial_app NoFile)).
    simpl. lia.
Defined.

Lemma refresh_without_common_dates_witness :
  refresh_label
    (refresh_data other_day_world (initial_app (cached_gold 0))).1 =
    LastRefreshed noon_jan5 ∧
  dialogs (refresh_data other_day_world (initial_app (cached_gold 0))).1 = [] ∧
  current_data
    (refresh_data other_day_world (initial_app (cached_gold 0))).1 = [].
Proof.
  destruct (refresh_without_common_dates other_day_world
              (initial_app (cached_gold 0)) gold_2000
              {["2024-01-02" := 40000%float]})
    as (Hlabel & Hdialogs & Hrows).
  - simpl. lia.
  - vm_compute. reflexivity.
  - intros Hempty. apply (f_equal (λ m, m !! "2024-01-01")) in Hempty.
    vm_compute in Hempty. discriminate.
  - intros Hempty. apply (f_equal (λ m, m !! "2024-01-02")) in Hempty.
    vm_compute in Hempty. discriminate.
  - split; [exact Hlabel|]. split; [exact Hdialogs|].
    apply Hrows. apply (bool_decide_unpack _). vm_compute. exact I.
Defined.

Lemma tree_matches_current_data_witness :
  tree (refresh_data demo_world demo_refreshed).1 =
    current_data (refresh_data demo_world demo_refreshed).1 ∧
  tree (set_days demo_world 0 demo_refreshed).1 =
    current_data (set_days demo_world 0 demo_refreshed).1.
Proof.
  apply (tree_matches_current_data demo_world 0 demo_refreshed).
  vm_compute. reflexivity.
Defined.


Lemma rows_imply_success_statuses_witness :
  api_status demo_refreshed !! "CoinGecko" = Some true ∧
  (api_status demo_refreshed !! "NBP" = Some true ∨
   api_status demo_refreshed !! "YFinance" = Some true).
Proof.
  apply (rows_imply_success_statuses demo_world (initial_app NoFile)).
  - simpl. lia.
  - vm_compute. discriminate.
Defined.

Lemma export_outcomes_witness :
  (∃ s' eff, export_to_excel demo_export (initial_app NoFile) = (s', Ok eff) ∧
             eff = no_effects ∧
             dialogs s' = [("Error", "No data to export!")]) ∧
  (∃ s' eff, export_to_excel cancelled_export demo_refreshed = (s', Ok eff) ∧
             eff = no_effects ∧ s' = demo_refreshed) ∧
  (∃ s' eff, export_to_excel failing_export demo_refreshed = (s', Ok eff) ∧
             export_logged eff = Some OSError ∧ saved eff = None).
Proof.
  split; [|split].
  - destruct (export_outcomes demo_export (initial_app NoFile))
      as (s' & eff & Hrun & _ & _ & Hempty & _).
    exists s', eff. split; [exact Hrun|]. by apply Hempty.
  - destruct (export_outcomes cancelled_export demo_refreshed)
      as (s' & eff & Hrun & _ & _ & _ & Hcancel & _).
    exists s', eff. split; [exact Hrun|]. apply Hcancel; [|reflexivity].
    vm_compute. discriminate.
  - destruct (export_outcomes failing_export demo_refreshed)
      as (s' & eff & Hrun & Hsaved & _ & _ & _ & Hfail & _).
    exists s', eff. split; [exact Hrun|]. split.
    + apply (Hfail OSError); [vm_compute; discriminate|discriminate|].
      reflexivity.
    + destruct (saved eff) eqn:Hs; [|done].
      destruct (proj1 Hsaved) as (_ & _ & Hok); [by eexists|].
      discriminate.
Defined.

Lemma export_sheet_content_witness :
  ∃ eff wb,
    export_to_excel demo_export demo_refreshed = (demo_refreshed, Ok eff) ∧
    saved eff = Some ("ratios.xlsx", wb) ∧
    wb_cells wb !! (1, 4)%nat = Some (header_cell "BTC/Gold Ratio") ∧
    wb_cells wb !! (2, 1)%nat = Some (plain_cell (CellText "2024-01-02")) ∧
    wb_cells wb !! (3, 3)%nat = Some (plain_cell (CellNumber 43000)) ∧
    wb_cells wb !! (4, 1)%nat = None.
Proof.
  destruct (export_sheet_content demo_export demo_refreshed)
    as (eff & wb & Hrun & Hsaved & _ & _ & _ & _ & Hratio & Hrows & Hdom).
  - vm_compute. discriminate.
  - discriminate.
  - reflexivity.
  - exists eff, wb. split; [exact Hrun|]. split; [exact Hsaved|].
    split; [exact Hratio|]. split; [|split].
    + apply (Hrows 0%nat
               {| row_date := "2024-01-02";
                  row_gold := (260 * 31.1034768 * 0.25)%float;
                  row_bitcoin := 42000;
                  row_ratio := (42000 / (260 * 31.1034768 * 0.25))%float |}
               1%nat); [vm_compute; reflexivity|lia].
    + apply (Hrows 1%nat
               {| row_date := "2024-01-03";
                  row_gold := (255 * 31.1034768 * 0.25)%float;
                  row_bitcoin := 43000;
                  row_ratio := (43000 / (255 * 31.1034768 * 0.25))%float |}
               3%nat); [vm_compute; reflexivity|lia].
    + destruct (wb_cells wb !! (4%nat, 1%nat)) as [x|] eqn:Hx; [|done].
      destruct (proj1 (Hdom 4%nat 1%nat)) as [Hr _]; [by eexists|].
      vm_compute in Hr. lia.
Defined.

Lemma export_widths_fit_witness :
  ∃ eff wb,
    export_to_excel demo_export demo_refreshed = (demo_refreshed, Ok eff) ∧
    saved eff = Some ("ratios.xlsx", wb) ∧
    (∃ width, wb_widths wb !! 3%nat = Some width ∧ (21 ≤ width)%nat).
Proof.
  destruct (export_widths_fit demo_export demo_refreshed)
    as (eff & wb & Hrun & Hsaved & Hfit & _).
  - vm_compute. discriminate.
  - discriminate.
  - reflexivity.
  - exists eff, wb. split; [exact Hrun|]. split; [exact Hsaved|].
    assert (Hhead : wb_cells wb !! (1, 3)%nat =
                    Some (header_cell "Bitcoin Price (USD)")).
    { rewrite export_run in Hrun. vm_compute in Hrun.
      injection Hrun as <-. injection Hsaved as <-. vm_compute. reflexivity. }
    destruct (Hfit 1%nat 3%nat _ Hhead) as (width & Hw & Hle).
    exists width. split; [exact Hw|exact Hle].
Defined.

(** * The cache read on files of any content *)

Lemma load_cached_prices_raw_value (now : datetime) (file : raw_cache_file) :
  load_cached_prices_raw now file =
    Ok (match file with
        | RawDocument (RawObject {| raw_timestamp := Some (TsNumber t);
                                    raw_prices := Some payload |}) =>
            if bool_decide (now - t < timedelta_hours 1) then payload
            else VNull
        | _ => VNull
        end).
Proof.
  unfold load_cached_prices_raw.
  destruct file as [| |[[[[t| |]|] [payload|]]|]]; simpl;
    try case_bool_decide; reflexivity.
Qed.

(** C2, as amended: [load_cached_prices] never raises; it returns the value
    stored under ['prices'], as it is and whatever its JSON type, exactly
    when the file parses to an object with a usable timestamp less than an
    hour old and a ['prices'] member, and [None] in every other case (no
    file, unreadable or unparsable file, not an object, timestamp missing
    or unusable, prices missing, an hour old or more).  On the files that
    [cache_prices] writes the value returned is the stored series. *)
Theorem load_returns_stored_value (now : datetime) (file : raw_cache_file) :
  ∃ value,
    load_cached_prices_raw now file = Ok value ∧
    (∀ payload, raw_fresh_record now file payload → value = payload) ∧
    ((∀ payload, ¬ raw_fresh_record now file payload) → value = VNull) ∧
    (value ≠ VNull → raw_fresh_record now file value) ∧
    (∀ w s, now = now_load w → file = raw_of_file (cache_file s) →
       ∃ r, load_cached_prices w s = (add_io CacheRead s, Ok r) ∧
            value = from_option json_of_prices VNull r ∧
            ∀ prices, r = Some prices ↔
                      fresh_record (now_load w) (cache_file s) prices).
Proof.
  rewrite load_cached_prices_raw_value. eexists. split; [reflexivity|].
  split; [|split; [|split]].
  - intros payload Hfresh. inversion Hfresh as [t p Hage]; subst.
    by rewrite bool_decide_eq_true_2.
  - intros Hnone.
    destruct file as [| |[[[[t| |]|] [payload|]]|]]; try done.
    case_bool_decide as Hage; [|done].
    by destruct (Hnone payload); constructor.
  - intros Hvalue.
    destruct file as [| |[[[[t| |]|] [payload|]]|]]; try done.
    case_bool_decide as Hage; [|done]. by constructor.
  - intros w s -> ->.
    destruct (load_cached_prices_run w s) as [r Hload]. exists r.
    split; [done|]. split; [|by apply load_cached_prices_fresh].
    rewrite load_cached_prices_value in Hload. injection Hload as <-.
    destruct (cache_file s) as [| |[[[[t| |]|] [prices|]]|]]; simpl;
      try done.
    by case_bool_decide.
Qed.

Lemma load_returns_stored_value_witness :
  load_cached_prices_raw noon_jan5 list_in_cache = Ok (VArray [VInt 1; VInt 2]) ∧
  load_cached_prices_raw (noon_jan5 + timedelta_hours 1) list_in_cache =
    Ok VNull ∧
  load_cached_prices_raw noon_jan5 (raw_of_file (cached_gold 0)) =
    Ok (json_of_prices gold_2000).
Proof.
  split; [|split].
  - destruct (load_returns_stored_value noon_jan5 list_in_cache)
      as (value & -> & Hserved & _).
    f_equal. apply Hserved. constructor. vm_compute. reflexivity.
  - destruct (load_returns_stored_value (noon_jan5 + timedelta_hours 1)
                list_in_cache) as (value & -> & _ & Hnone & _).
    f_equal. apply Hnone. intros payload Hfresh.
    inversion Hfresh as [t p Hage]; subst. vm_compute in Hage. discriminate.
  - destruct (load_returns_stored_value noon_jan5
                (raw_of_file (cached_gold 0)))
      as (value & -> & _ & _ & _ & Htyped).
    destruct (Htyped demo_world (initial_app (cached_gold 0)))
      as (r & Hload & -> & Hfresh); [reflexivity..|].
    f_equal. assert (r = Some gold_2000) as ->; [|reflexivity].
    apply Hfresh. constructor. vm_compute. reflexivity.
Defined.

(** A fresh record whose ['prices'] is a list: not a date-to-price mapping,
    yet [load_cached_prices] returns it, and not [None]. *)
Lemma load_serves_ill_typed_prices :
  is_price_series (VArray [VInt 1; VInt 2]) = false ∧
  load_cached_prices_raw noon_jan5 list_in_cache =
    Ok (VArray [VInt 1; VInt 2]) ∧
  load_cached_prices_raw noon_jan5 list_in_cache ≠ Ok VNull.
Proof.
  split; [reflexivity|]. split; [vm_compute; reflexivity|].
  vm_compute. discriminate.
Qed.

(** With a day count of 1 the one selected date is the third of January;
    gold is 0.0 there, so the refresh shows no row and not that date. *)
Lemma refresh_drops_zero_priced_date :
  ∃ gold bitcoin,
    fetch_prices zero_latest_world (set_days_to_show 1 (initial_app NoFile)) =
      (Some gold, Some bitcoin) ∧
    slice_from (-1) (sorted_common_keys gold bitcoin) = ["2024-01-03"] ∧
    row_date <$>
      current_data (refresh_data zero_latest_world
                      (set_days_to_show 1 (initial_app NoFile))).1 = [] ∧
    row_date <$>
      current_data (refresh_data zero_latest_world
                      (set_days_to_show 1 (initial_app NoFile))).1 ≠
      slice_from (- days_to_show (set_days_to_show 1 (initial_app NoFile)))
        (sorted_common_keys gold bitcoin).
Proof.
  exists (default ∅ (fetch_prices zero_latest_world
                       (set_days_to_show 1 (initial_app NoFile))).1),
         (default ∅ (fetch_prices zero_latest_world
                       (set_days_to_show 1 (initial_app NoFile))).2).
  split; [vm_compute; reflexivity|].
  split; [vm_compute; reflexivity|].
  split; [vm_compute; reflexivity|].
  vm_compute. discriminate.
Qed.
